(** * Verification of the LAD logging-configuration generator and the
      VM-backup machine-identity helper

    Shallow embedding of
      - Diagnostic/Utils/lad_logging_config.py
      - VMBackup/main/MachineIdentity.py
    Python strings are Rocq strings, Python dicts are insertion-ordered
    association lists, exceptions are an explicit result type, and the
    attributes of an instance are the fields of a record that every method
    threads through. *)

From Stdlib Require Import Ascii String.
From stdpp Require Import base tactics option list strings sorting gmap.

Local Open Scope string_scope.

(** ** Python primitives used by the sources *)
Module Py.

(** The two characters that cannot be typed inside a literal. *)
Definition nl : string := String "010"%char EmptyString.
Definition dq : string := String "034"%char EmptyString.

(** [unlines] lays out a triple-quoted template: every line is followed
    by a line feed. *)
Definition unlines (ls : list string) : string :=
  foldr (fun l acc => l +:+ nl +:+ acc) EmptyString ls.

(** [sep.join(xs)] *)
Fixpoint join (sep : string) (xs : list string) : string :=
  match xs with
  | [] => EmptyString
  | x :: xs' =>
      match xs' with
      | [] => x
      | _ :: _ => x +:+ sep +:+ join sep xs'
      end
  end.

(** [s.split(sep)] for a one-character separator: the empty string
    splits into one empty field. *)
Fixpoint split (sep : ascii) (s : string) : list string :=
  match s with
  | EmptyString => [EmptyString]
  | String c s' =>
      if Ascii.eqb c sep then EmptyString :: split sep s'
      else match split sep s' with
           | [] => [String c EmptyString]
           | w :: ws => String c w :: ws
           end
  end.

(** [s.replace(old, new)] for one-character [old] and [new]. *)
Fixpoint replace (old new : ascii) (s : string) : string :=
  match s with
  | EmptyString => EmptyString
  | String c s' =>
      String (if Ascii.eqb c old then new else c) (replace old new s')
  end.

(** [c in s] for a character [c]. *)
Fixpoint has_char (c : ascii) (s : string) : bool :=
  match s with
  | EmptyString => false
  | String c' s' => Ascii.eqb c' c || has_char c s'
  end.

(** Truth value of a string and of a list: empty is false. *)
Definition truthy_str (s : string) : bool :=
  match s with EmptyString => false | String _ _ => true end.

Definition truthy_list {A} (l : list A) : bool :=
  match l with [] => false | _ :: _ => true end.

(** Truth value of an attribute that holds [None] or a string. *)
Definition truthy_opt_str (o : option string) : bool :=
  match o with None => false | Some s => truthy_str s end.

(** A dict is an association list without repeated keys, in insertion
    order; assigning to a key that is present keeps its position and
    replaces its value. *)
Definition dict (V : Type) : Type := list (string * V).

Fixpoint dict_get {V} (k : string) (d : dict V) : option V :=
  match d with
  | [] => None
  | (k', v) :: d' => if String.eqb k k' then Some v else dict_get k d'
  end.

Fixpoint dict_set {V} (k : string) (v : V) (d : dict V) : dict V :=
  match d with
  | [] => [(k, v)]
  | (k', v') :: d' =>
      if String.eqb k k' then (k, v) :: d' else (k', v') :: dict_set k v d'
  end.

Definition dict_keys {V} (d : dict V) : list string := d.*1.

Definition dict_contains {V} (k : string) (d : dict V) : bool :=
  match dict_get k d with Some _ => true | None => false end.

(** [dict(pairs)]: pairs are assigned from left to right. *)
Definition dict_of_pairs {V} (ps : list (string * V)) : dict V :=
  fold_left (fun d p => dict_set p.1 p.2 d) ps [].

(** The value that [dict(pairs)] keeps for a key: the one of the last
    pair with that key. *)
Fixpoint lookup_last {V} (k : string) (ps : list (string * V)) : option V :=
  match ps with
  | [] => None
  | (k', v) :: ps' =>
      match lookup_last k ps' with
      | Some v' => Some v'
      | None => if String.eqb k k' then Some v else None
      end
  end.

(** [sorted(keys)]: strings are ordered by code point, lexicographically. *)
Definition sorted (ks : list string) : list string := merge_sort String.le ks.

(** Exceptions raised by the modelled code. *)
Inductive exn : Type :=
| LadLoggingConfigException (msg : string)
| KeyError (key : string)
| AttributeError (msg : string)
| TypeError (msg : string)
| IOError (msg : string)
| ValueError (msg : string).

Inductive result (A : Type) : Type :=
| Ok (a : A)
| Raise (e : exn).
Global Arguments Ok {A} a.
Global Arguments Raise {A} e.

Definition bind {A B} (r : result A) (k : A -> result B) : result B :=
  match r with
  | Ok a => k a
  | Raise e => Raise e
  end.

Definition is_ok {A} (r : result A) : bool :=
  match r with Ok _ => true | Raise _ => false end.

(** A [for] loop whose body updates the loop variables [s] and may
    raise: the first exception leaves the loop. *)
Fixpoint for_each {S A} (xs : list A) (body : S -> A -> result S) (s : S)
  : result S :=
  match xs with
  | [] => Ok s
  | x :: xs' =>
      match body s x with
      | Ok s' => for_each xs' body s'
      | Raise e => Raise e
      end
  end.

(** A list built by a comprehension or a generator whose element
    expression may raise. *)
Fixpoint comprehension {A B} (f : A -> result B) (xs : list A)
  : result (list B) :=
  match xs with
  | [] => Ok []
  | x :: xs' =>
      match f x with
      | Ok y =>
          match comprehension f xs' with
          | Ok ys => Ok (y :: ys)
          | Raise e => Raise e
          end
      | Raise e => Raise e
      end
  end.

(** [d[k]] *)
Definition getitem {V} (d : dict V) (k : string) : result V :=
  match dict_get k d with
  | Some v => Ok v
  | None => Raise (KeyError k)
  end.

(** Methods that read and assign attributes or files: a state [S] is
    threaded through, and an exception keeps the state reached. *)
Definition M (S A : Type) : Type := S -> result A * S.

Definition ret {S A} (a : A) : M S A := fun s => (Ok a, s).

Definition raise {S A} (e : exn) : M S A := fun s => (Raise e, s).

Definition bindM {S A B} (m : M S A) (k : A -> M S B) : M S B :=
  fun s =>
    match m s with
    | (Ok a, s') => k a s'
    | (Raise e, s') => (Raise e, s')
    end.

Definition lift {S A} (r : result A) : M S A := fun s => (r, s).

Definition gets {S A} (f : S -> A) : M S A := fun s => (Ok (f s), s).

Definition modify {S} (f : S -> S) : M S unit := fun s => (Ok tt, f s).

(** [try: body finally: fin]: [fin] always runs; an exception of
    [fin] replaces the outcome of [body]. *)
Definition try_finally {S A} (body : M S A) (fin : M S unit) : M S A :=
  fun s =>
    match body s with
    | (r, s') =>
        match fin s' with
        | (Ok _, s'') => (r, s'')
        | (Raise e, s'') => (Raise e, s'')
        end
    end.

End Py.

Import Py.

Notation "x <- r ;; k" := (Py.bind r (fun x => k))
  (at level 100, r at next level, right associativity).
Notation "x <~ m ;; k" := (Py.bindM m (fun x => k))
  (at level 100, m at next level, right associativity).

(** ** Diagnostic/Utils/lad_logging_config.py *)
Module LadLoggingConfig.

(** *** Module-level name table *)

Definition facility_names : list (string * string) :=
  [ ("LOG_AUTH", "auth"); ("LOG_AUTHPRIV", "authpriv"); ("LOG_CRON", "cron");
    ("LOG_DAEMON", "daemon"); ("LOG_FTP", "ftp"); ("LOG_KERN", "kern");
    ("LOG_LOCAL0", "local0"); ("LOG_LOCAL1", "local1");
    ("LOG_LOCAL2", "local2"); ("LOG_LOCAL3", "local3");
    ("LOG_LOCAL4", "local4"); ("LOG_LOCAL5", "local5");
    ("LOG_LOCAL6", "local6"); ("LOG_LOCAL7", "local7");
    ("LOG_LPR", "lpr"); ("LOG_MAIL", "mail"); ("LOG_NEWS", "news");
    ("LOG_SYSLOG", "syslog"); ("LOG_USER", "user"); ("LOG_UUCP", "uucp") ].

Definition severity_names : list (string * string) :=
  [ ("LOG_EMERG", "emerg"); ("LOG_ALERT", "alert"); ("LOG_CRIT", "crit");
    ("LOG_ERR", "err"); ("LOG_WARNING", "warning");
    ("LOG_NOTICE", "notice"); ("LOG_INFO", "info"); ("LOG_DEBUG", "debug") ].

(** The dict literal lists the facilities and then the severities. *)
Definition syslog_name_to_rsyslog_name_map : dict string :=
  dict_of_pairs (facility_names ++ severity_names).

Definition syslog_name_to_rsyslog_name (syslog_name : string) : result string :=
  match dict_get syslog_name syslog_name_to_rsyslog_name_map with
  | None =>
      Raise (LadLoggingConfigException
               ("Invalid syslog name given: " +:+ syslog_name))
  | Some v => Ok v
  end.

(** *** Module-level mdsd XML templates, as functions of their fields *)

Definition _mdsd_sources_events_config_template
  (sources events eh_urls : string) : string :=
  nl +:+
  "<MonitoringManagement eventVersion=" +:+ dq +:+ "2" +:+ dq +:+
    " namespace=" +:+ dq +:+ dq +:+
    " timestamp=" +:+ dq +:+ "2014-12-01T20:00:00.000" +:+ dq +:+
    " version=" +:+ dq +:+ "1.0" +:+ dq +:+ ">" +:+ nl +:+
  "  <Sources>" +:+ nl +:+
  sources +:+ "  </Sources>" +:+ nl +:+
  nl +:+
  "  <Events>" +:+ nl +:+
  "    <MdsdEvents>" +:+ nl +:+
  events +:+ "    </MdsdEvents>" +:+ nl +:+
  "  </Events>" +:+ nl +:+
  nl +:+
  "  <EventStreamingAnnotations>" +:+ nl +:+
  eh_urls +:+ "  </EventStreamingAnnotations>" +:+ nl +:+
  "</MonitoringManagement>" +:+ nl.

Definition _mdsd_per_source_config_template (name : string) : string :=
  "    <Source name=" +:+ dq +:+ name +:+ dq +:+
    " dynamic_schema=" +:+ dq +:+ "true" +:+ dq +:+ " />" +:+ nl.

Definition _mdsd_per_event_source_config_template
  (source routeevents : string) : string :=
  "      <MdsdEventSource source=" +:+ dq +:+ source +:+ dq +:+ ">" +:+ nl +:+
  "        " +:+ routeevents +:+ nl +:+
  "      </MdsdEventSource>" +:+ nl.

Definition _mdsd_per_routeevent_config_template
  (event_name opt_store_type : string) : string :=
  "    <RouteEvent dontUsePerNDayTable=" +:+ dq +:+ "true" +:+ dq +:+
    " eventName=" +:+ dq +:+ event_name +:+ dq +:+
    " priority=" +:+ dq +:+ "High" +:+ dq +:+
    " " +:+ opt_store_type +:+ " />" +:+ nl.

Definition _mdsd_per_eh_url_template (eh_name eh_url : string) : string :=
  "    <EventStreamingAnnotation name=" +:+ dq +:+ eh_name +:+ dq +:+ ">" +:+ nl +:+
  "       <EventPublisher>" +:+ nl +:+
  "         <Content/>" +:+ nl +:+
  "         <Key><![CDATA[" +:+ eh_url +:+ "]]></Key>" +:+ nl +:+
  "       </EventPublisher>" +:+ nl +:+
  "    </EventStreamingAnnotation>" +:+ nl.

(** *** Constructor arguments *)

(** The syslogEvents JSON object with its two keys; a key that is not
    given is [None]. *)
Record SyslogEvents : Type := {
  se_sinks : option string;
  se_syslogEventConfiguration : option (dict string)
}.

(** One element of the fileLogConfiguration JSON array. *)
Record FileLogEntry : Type := {
  fl_file : option string;
  fl_table : option string;
  fl_sinks : option string
}.

(** A sink definition is the dict that the registry returns. *)
Definition Sink : Type := dict string.

(** LadUtil.SinkConfiguration is used through one method only. *)
Record SinkConfiguration : Type := {
  get_sink_by_name : string -> option Sink
}.

(** Truth value of the syslogEvents argument: a False object and a dict
    without keys are false. *)
Definition truthy_syslogEvents (se : option SyslogEvents) : bool :=
  match se with
  | None => false
  | Some r =>
      match se_sinks r, se_syslogEventConfiguration r with
      | None, None => false
      | _, _ => true
      end
  end.

Definition truthy_fileLogs (fl : option (list FileLogEntry)) : bool :=
  match fl with
  | None => false
  | Some l => truthy_list l
  end.

Definition truthy_opt_dict (d : option (dict string)) : bool :=
  match d with
  | None => false
  | Some m => truthy_list m
  end.

(** *** The instance: one field per attribute; an attribute that was
    never assigned is [None] in the two file maps. *)
Record t : Type := {
  _syslogEvents : option SyslogEvents;
  _fileLogs : option (list FileLogEntry);
  _sinksConfig : SinkConfiguration;
  _fac_sev_map : option (dict string);
  _syslog_disabled : bool;
  _file_table_map : option (dict string);
  _file_sinks_map : option (dict string);
  _oms_rsyslog_config : option string;
  _oms_syslog_ng_config : option string;
  _oms_mdsd_syslog_config : option string;
  _oms_mdsd_filelog_config : option string
}.

Definition set_oms_rsyslog_config (v : string) (self : t) : t :=
  {| _syslogEvents := _syslogEvents self; _fileLogs := _fileLogs self;
     _sinksConfig := _sinksConfig self; _fac_sev_map := _fac_sev_map self;
     _syslog_disabled := _syslog_disabled self;
     _file_table_map := _file_table_map self;
     _file_sinks_map := _file_sinks_map self;
     _oms_rsyslog_config := Some v;
     _oms_syslog_ng_config := _oms_syslog_ng_config self;
     _oms_mdsd_syslog_config := _oms_mdsd_syslog_config self;
     _oms_mdsd_filelog_config := _oms_mdsd_filelog_config self |}.

Definition set_oms_syslog_ng_config (v : string) (self : t) : t :=
  {| _syslogEvents := _syslogEvents self; _fileLogs := _fileLogs self;
     _sinksConfig := _sinksConfig self; _fac_sev_map := _fac_sev_map self;
     _syslog_disabled := _syslog_disabled self;
     _file_table_map := _file_table_map self;
     _file_sinks_map := _file_sinks_map self;
     _oms_rsyslog_config := _oms_rsyslog_config self;
     _oms_syslog_ng_config := Some v;
     _oms_mdsd_syslog_config := _oms_mdsd_syslog_config self;
     _oms_mdsd_filelog_config := _oms_mdsd_filelog_config self |}.

Definition set_oms_mdsd_syslog_config (v : string) (self : t) : t :=
  {| _syslogEvents := _syslogEvents self; _fileLogs := _fileLogs self;
     _sinksConfig := _sinksConfig self; _fac_sev_map := _fac_sev_map self;
     _syslog_disabled := _syslog_disabled self;
     _file_table_map := _file_table_map self;
     _file_sinks_map := _file_sinks_map self;
     _oms_rsyslog_config := _oms_rsyslog_config self;
     _oms_syslog_ng_config := _oms_syslog_ng_config self;
     _oms_mdsd_syslog_config := Some v;
     _oms_mdsd_filelog_config := _oms_mdsd_filelog_config self |}.

Definition set_oms_mdsd_filelog_config (v : string) (self : t) : t :=
  {| _syslogEvents := _syslogEvents self; _fileLogs := _fileLogs self;
     _sinksConfig := _sinksConfig self; _fac_sev_map := _fac_sev_map self;
     _syslog_disabled := _syslog_disabled self;
     _file_table_map := _file_table_map self;
     _file_sinks_map := _file_sinks_map self;
     _oms_rsyslog_config := _oms_rsyslog_config self;
     _oms_syslog_ng_config := _oms_syslog_ng_config self;
     _oms_mdsd_syslog_config := _oms_mdsd_syslog_config self;
     _oms_mdsd_filelog_config := Some v |}.

(** *** __init__ *)

Definition KeyError_msg (key : string) : string :=
  "Invalid setting name provided (KeyError). Exception msg: '" +:+ key +:+ "'".

(** [entry['file']], the one subscript of the two comprehensions. *)
Definition entry_file (entry : FileLogEntry) : result string :=
  match fl_file entry with
  | Some f => Ok f
  | None => Raise (KeyError "file")
  end.

Definition file_table_pair (entry : FileLogEntry) : result (string * string) :=
  f <- entry_file entry ;; Ok (f, default EmptyString (fl_table entry)).

Definition file_sinks_pair (entry : FileLogEntry) : result (string * string) :=
  f <- entry_file entry ;; Ok (f, default EmptyString (fl_sinks entry)).

(** The body of the [try] block: the facility-severity map and the two
    file maps. *)
Definition init_body (syslogEvents : option SyslogEvents)
  (fileLogs : option (list FileLogEntry))
  : result (option (dict string) * option (dict string) * option (dict string)) :=
  fac_sev_map <-
    (if truthy_syslogEvents syslogEvents then
       match syslogEvents with
       | Some r =>
           match se_syslogEventConfiguration r with
           | Some m => Ok (Some m)
           | None => Raise (KeyError "syslogEventConfiguration")
           end
       | None => Ok None
       end
     else Ok None) ;;
  if truthy_fileLogs fileLogs then
    tps <- comprehension file_table_pair (default [] fileLogs) ;;
    sps <- comprehension file_sinks_pair (default [] fileLogs) ;;
    Ok (fac_sev_map, Some (dict_of_pairs tps), Some (dict_of_pairs sps))
  else Ok (fac_sev_map, None, None).

Definition __init__ (syslogEvents : option SyslogEvents)
  (fileLogs : option (list FileLogEntry)) (sinksConfig : SinkConfiguration)
  : result t :=
  match init_body syslogEvents fileLogs with
  | Ok (fac_sev_map, file_table_map, file_sinks_map) =>
      Ok {| _syslogEvents := syslogEvents;
            _fileLogs := fileLogs;
            _sinksConfig := sinksConfig;
            _fac_sev_map := fac_sev_map;
            _syslog_disabled := negb (truthy_opt_dict fac_sev_map);
            _file_table_map := file_table_map;
            _file_sinks_map := file_sinks_map;
            _oms_rsyslog_config := None;
            _oms_syslog_ng_config := None;
            _oms_mdsd_syslog_config := None;
            _oms_mdsd_filelog_config := None |}
  | Raise (KeyError key) =>
      Raise (LadLoggingConfigException (KeyError_msg key))
  | Raise e => Raise e
  end.

(** *** The generators *)

Section Generators.

(** Utils.omsagent_util.get_syslog_ng_src_name reads the syslog-ng
    configuration of the machine; its result is a parameter. *)
Variable get_syslog_ng_src_name : string.

Definition rsyslog_line (p : string * string) : result string :=
  fac <- syslog_name_to_rsyslog_name p.1 ;;
  sev <- syslog_name_to_rsyslog_name p.2 ;;
  Ok (fac +:+ "." +:+ sev +:+ "  @127.0.0.1:%SYSLOG_PORT%").

(** [self._fac_sev_map.iteritems()] *)
Definition iteritems (m : option (dict string)) : result (list (string * string)) :=
  match m with
  | Some d => Ok d
  | None => Raise (AttributeError "'NoneType' object has no attribute 'iteritems'")
  end.

Definition get_oms_rsyslog_config (self : t) : result string * t :=
  if negb (truthy_opt_str (_oms_rsyslog_config self)) then
    if _syslog_disabled self then
      (Ok EmptyString, set_oms_rsyslog_config EmptyString self)
    else
      match (items <- iteritems (_fac_sev_map self) ;;
             ls <- comprehension rsyslog_line items ;;
             Ok (join nl ls +:+ nl)) with
      | Ok v => (Ok v, set_oms_rsyslog_config v self)
      | Raise e => (Raise e, self)
      end
  else (Ok (default EmptyString (_oms_rsyslog_config self)), self).

Definition syslog_ng_line (p : string * string) : result string :=
  let src := get_syslog_ng_src_name in
  fac <- syslog_name_to_rsyslog_name p.1 ;;
  sev <- syslog_name_to_rsyslog_name p.2 ;;
  Ok ("log { source(" +:+ src +:+ "); filter(f_LAD_oms_f_" +:+ fac +:+
      "); filter(f_LAD_oms_ml_" +:+ sev +:+ "); destination(d_LAD_oms); };").

Definition get_oms_syslog_ng_config (self : t) : result string * t :=
  if negb (truthy_opt_str (_oms_syslog_ng_config self)) then
    if _syslog_disabled self then
      (Ok EmptyString, set_oms_syslog_ng_config EmptyString self)
    else
      match (items <- iteritems (_fac_sev_map self) ;;
             ls <- comprehension syslog_ng_line items ;;
             Ok (join nl ls +:+ nl)) with
      | Ok v => (Ok v, set_oms_syslog_ng_config v self)
      | Raise e => (Raise e, self)
      end
  else (Ok (default EmptyString (_oms_syslog_ng_config self)), self).

(** The private helper shared by the two mdsd generators. *)
Definition sink_not_defined_msg (sink_name : string) : string :=
  "Sink name " +:+ dq +:+ sink_name +:+ dq +:+ " is not defined in sinksConfig".

Definition sink_type_not_defined_msg (sink_name : string) : string :=
  "Sink type for sink " +:+ dq +:+ sink_name +:+ dq +:+
  " is not defined in sinksConfig".

Definition sasURL_not_specified_msg (sink_name : string) : string :=
  "sasURL is not specified for EventHub sink_name=" +:+ sink_name.

Definition sink_type_not_supported_msg (sink_type sink_name : string) : string :=
  sink_type +:+ " sink type (for sink_name=" +:+ sink_name +:+ ") is not supported".

Definition __generate_routeevent_and_eh_url_for_extra_sink
  (self : t) (sink_name : string) : result (string * string) :=
  match get_sink_by_name (_sinksConfig self) sink_name with
  | None => Raise (LadLoggingConfigException (sink_not_defined_msg sink_name))
  | Some sink =>
      if negb (truthy_list sink) then
        Raise (LadLoggingConfigException (sink_not_defined_msg sink_name))
      else
        sink_type <- getitem sink "type" ;;
        if negb (truthy_str sink_type) then
          Raise (LadLoggingConfigException (sink_type_not_defined_msg sink_name))
        else if String.eqb sink_type "JsonBlob" then
          Ok (_mdsd_per_routeevent_config_template sink_name
                ("storeType=" +:+ dq +:+ "JsonBlob" +:+ dq),
              EmptyString)
        else if String.eqb sink_type "EventHub" then
          if negb (dict_contains "sasURL" sink) then
            Raise (LadLoggingConfigException (sasURL_not_specified_msg sink_name))
          else
            let eh_routeevent :=
              _mdsd_per_routeevent_config_template sink_name
                ("storeType=" +:+ dq +:+ "local" +:+ dq) in
            sasURL <- getitem sink "sasURL" ;;
            Ok (eh_routeevent, _mdsd_per_eh_url_template sink_name sasURL)
        else
          Raise (LadLoggingConfigException
                   (sink_type_not_supported_msg sink_type sink_name))
  end.

Definition reserved_name_msg : string :=
  "'LinuxSyslog' can't be used as a sink name. It's reserved for default Azure Table name for syslog events.".

(** Body of the loop over the sinks of syslogEvents; the loop
    variables are (syslog_routeevents, syslog_eh_urls). *)
Definition syslog_sink_body (self : t) (acc : string * string)
  (sink_name : string) : result (string * string) :=
  if String.eqb sink_name "LinuxSyslog" then
    Raise (LadLoggingConfigException reserved_name_msg)
  else
    p <- __generate_routeevent_and_eh_url_for_extra_sink self sink_name ;;
    Ok (acc.1 +:+ p.1, acc.2 +:+ p.2).

Definition __generate_oms_mdsd_syslog_config (self : t) : result string :=
  if _syslog_disabled self then Ok EmptyString
  else
    let syslog_routeevents :=
      _mdsd_per_routeevent_config_template "LinuxSyslog" EmptyString in
    let syslog_eh_urls := EmptyString in
    acc <-
      match _syslogEvents self with
      | None => Raise (TypeError "argument of type 'bool' is not iterable")
      | Some se =>
          match se_sinks se with
          | Some sinks =>
              for_each (split "," sinks) (syslog_sink_body self)
                (syslog_routeevents, syslog_eh_urls)
          | None => Ok (syslog_routeevents, syslog_eh_urls)
          end
      end ;;
    Ok (_mdsd_sources_events_config_template
          (_mdsd_per_source_config_template "mdsd.syslog")
          (_mdsd_per_event_source_config_template "mdsd.syslog" acc.1)
          acc.2).

Definition get_oms_mdsd_syslog_config (self : t) : result string * t :=
  if negb (truthy_opt_str (_oms_mdsd_syslog_config self)) then
    match __generate_oms_mdsd_syslog_config self with
    | Ok v => (Ok v, set_oms_mdsd_syslog_config v self)
    | Raise e => (Raise e, self)
    end
  else (Ok (default EmptyString (_oms_mdsd_syslog_config self)), self).

(** An attribute that [__init__] assigns only under a condition. *)
Definition getattr (name : string) (a : option (dict string)) : result (dict string) :=
  match a with
  | Some d => Ok d
  | None =>
      Raise (AttributeError
               ("LadLoggingConfig instance has no attribute '" +:+ name +:+ "'"))
  end.

Definition neither_table_nor_sinks_msg (file_key : string) : string :=
  "Neither " +:+ dq +:+ "table" +:+ dq +:+ " nor " +:+ dq +:+ "sinks" +:+ dq +:+
  " defined for file " +:+ dq +:+ file_key +:+ dq.

Definition source_name_of (file_key : string) : string :=
  "mdsd.filelog" +:+ replace "/" "." file_key.

(** Body of the inner loop over the sinks of one file; the loop
    variables are (per_file_routeevents, filelogs_eh_urls). *)
Definition filelog_sink_body (self : t) (acc : string * string)
  (sink_name : string) : result (string * string) :=
  p <- __generate_routeevent_and_eh_url_for_extra_sink self sink_name ;;
  Ok (acc.1 +:+ p.1, acc.2 +:+ p.2).

(** Body of the loop over the sorted file keys; the loop variables are
    (filelogs_sources, filelogs_mdsd_event_sources, filelogs_eh_urls). *)
Definition filelog_file_body (self : t) (file_table_map file_sinks_map : dict string)
  (acc : string * string * string) (file_key : string)
  : result (string * string * string) :=
  let '(filelogs_sources, filelogs_mdsd_event_sources, filelogs_eh_urls) := acc in
  table <- getitem file_table_map file_key ;;
  sinks <- getitem file_sinks_map file_key ;;
  if negb (truthy_str table) && negb (truthy_str sinks) then
    Raise (LadLoggingConfigException (neither_table_nor_sinks_msg file_key))
  else
    let source_name := source_name_of file_key in
    let filelogs_sources :=
      filelogs_sources +:+ _mdsd_per_source_config_template source_name in
    let per_file_routeevents :=
      if truthy_str table then
        EmptyString +:+ _mdsd_per_routeevent_config_template table EmptyString
      else EmptyString in
    inner <-
      (if truthy_str sinks then
         for_each (split "," sinks) (filelog_sink_body self)
           (per_file_routeevents, filelogs_eh_urls)
       else Ok (per_file_routeevents, filelogs_eh_urls)) ;;
    Ok (filelogs_sources,
        filelogs_mdsd_event_sources +:+
          _mdsd_per_event_source_config_template source_name inner.1,
        inner.2).

Definition __generate_oms_mdsd_filelog_config (self : t) : result string :=
  if negb (truthy_fileLogs (_fileLogs self)) then Ok EmptyString
  else
    file_table_map <- getattr "_file_table_map" (_file_table_map self) ;;
    acc <-
      for_each (sorted (dict_keys file_table_map))
        (fun acc file_key =>
           file_sinks_map <- getattr "_file_sinks_map" (_file_sinks_map self) ;;
           filelog_file_body self file_table_map file_sinks_map acc file_key)
        (EmptyString, EmptyString, EmptyString) ;;
    Ok (_mdsd_sources_events_config_template acc.1.1 acc.1.2 acc.2).

Definition get_oms_mdsd_filelog_config (self : t) : result string * t :=
  if negb (truthy_opt_str (_oms_mdsd_filelog_config self)) then
    match __generate_oms_mdsd_filelog_config self with
    | Ok v => (Ok v, set_oms_mdsd_filelog_config v self)
    | Raise e => (Raise e, self)
    end
  else (Ok (default EmptyString (_oms_mdsd_filelog_config self)), self).

Definition fluentd_syslog_src_config : string :=
  nl +:+
  unlines
    [ "<source>";
      "  type syslog";
      "  port %SYSLOG_PORT%";
      "  bind 127.0.0.1";
      "  protocol_type udp";
      "  tag mdsd.syslog";
      "</source>";
      "";
      "# Generate fields expected for existing mdsd syslog collection schema.";
      "<filter mdsd.syslog.**>";
      "  type record_transformer";
      "  enable_ruby";
      "  <record>";
      "    # Fields expected by mdsd for syslog messages";
      "    Ignore " +:+ dq +:+ "syslog" +:+ dq;
      "    Facility ${tag_parts[2]}";
      "    Severity ${tag_parts[3]}";
      "    EventTime ${time.strftime('%Y-%m-%dT%H:%M:%S%z')}";
      "    SendingHost ${record[" +:+ dq +:+ "source_host" +:+ dq +:+ "]}";
      "    Msg ${record[" +:+ dq +:+ "message" +:+ dq +:+ "]}";
      "  </record>";
      "  remove_keys host,ident,pid,message,source_host  # No need of these fields for mdsd so remove";
      "</filter>" ].

Definition get_oms_fluentd_syslog_src_config (self : t) : result string :=
  Ok (if _syslog_disabled self then EmptyString else fluentd_syslog_src_config).

Definition fluentd_tail_src_config_template (file_paths : string) : string :=
  nl +:+
  unlines
    [ "# For all monitored files";
      "<source>";
      "  @type tail";
      "  path " +:+ file_paths;
      "  pos_file /var/opt/microsoft/omsagent/LAD/tmp/filelogs.pos";
      "  tag mdsd.filelog.*";
      "  format none";
      "  message_key Msg  # LAD uses " +:+ dq +:+ "Msg" +:+ dq +:+ " as the field name";
      "</source>";
      "";
      "# Add FileTag field (existing LAD behavior)";
      "<filter mdsd.filelog.**>";
      "  @type record_transformer";
      "  <record>";
      "    FileTag ${tag_suffix[2]}";
      "  </record>";
      "</filter>" ].

Definition get_oms_fluentd_filelog_src_config (self : t) : result string :=
  if negb (truthy_fileLogs (_fileLogs self)) then Ok EmptyString
  else
    file_table_map <- getattr "_file_table_map" (_file_table_map self) ;;
    Ok (fluentd_tail_src_config_template (join "," (dict_keys file_table_map))).

Definition fluentd_out_mdsd_config_template (tag_regex_cfg_line : string) : string :=
  nl +:+
  unlines
    [ "# Output to mdsd";
      "<match mdsd.**>";
      "    type mdsd";
      "    log_level warn";
      "    djsonsocket /var/run/mdsd/lad_mdsd_djson.socket  # Full path to mdsd dynamic json socket file";
      "    acktimeoutms 5000  # max time in milli-seconds to wait for mdsd acknowledge response. If 0, no wait." ]
  +:+ tag_regex_cfg_line +:+
  unlines
    [ "    num_threads 1";
      "    buffer_chunk_limit 1000k";
      "    buffer_type file";
      "    buffer_path /var/opt/microsoft/omsagent/state/out_mdsd*.buffer";
      "    buffer_queue_limit 128";
      "    flush_interval 10s";
      "    retry_limit 3";
      "    retry_wait 10s";
      "</match>" ].

(** The raw string of the source keeps its two backslashes. *)
Definition tag_regex_cfg_line_enabled : string :=
  "    mdsd_tag_regex_patterns [ " +:+ dq +:+ "^mdsd\\.syslog" +:+ dq +:+
  " ] # fluentd tag patterns whose match will be used as mdsd source name" +:+ nl.

Definition get_oms_fluentd_out_mdsd_config (self : t) : result string :=
  let tag_regex_cfg_line :=
    if _syslog_disabled self then EmptyString else tag_regex_cfg_line_enabled in
  Ok (fluentd_out_mdsd_config_template tag_regex_cfg_line).

End Generators.

(** *** Conditions on policies that the statements refer to *)

(** The event-configuration mapping of a syslog policy is absent or
    empty: syslog collection is disabled. *)
Definition mapping_absent_or_empty (se : option SyslogEvents) : Prop :=
  match se with
  | None => True
  | Some r =>
      se_syslogEventConfiguration r = None
      ∨ se_syslogEventConfiguration r = Some []
  end.

(** The registry defines the sink, with type EventHub and without a
    sasURL. *)
Definition eventhub_without_sasURL (sc : SinkConfiguration) (sink_name : string)
  : Prop :=
  ∃ sink, get_sink_by_name sc sink_name = Some sink
          ∧ dict_get "type" sink = Some "EventHub"
          ∧ dict_get "sasURL" sink = None.


(** The pattern of the four cached generators: the text is computed
    when the cache holds nothing or the empty string, and it is stored
    when the computation returns. *)
Definition memoized (cache : t -> option string) (set : string -> t -> t)
  (compute : t -> result string) (self : t) : result string * t :=
  if negb (truthy_opt_str (cache self)) then
    match compute self with
    | Ok v => (Ok v, set v self)
    | Raise e => (Raise e, self)
    end
  else (Ok (default EmptyString (cache self)), self).

(** The strings of a list, one after the other. *)
Definition str_concat (xs : list string) : string :=
  foldr String.append EmptyString xs.

(** *** What the file loop writes for one file *)







(** *** Paths with the same source name *)

Definition slash_or_dot (c : ascii) : bool :=
  Ascii.eqb c "/" || Ascii.eqb c ".".

(** Two paths of the same length that differ, if at all, only at
    positions where each of them has a slash or a dot. *)
Fixpoint slash_dot_variants (p q : string) : bool :=
  match p, q with
  | EmptyString, EmptyString => true
  | String c p', String d q' =>
      (Ascii.eqb c d || (slash_or_dot c && slash_or_dot d))
      && slash_dot_variants p' q'
  | _, _ => false
  end.

(** The dots of two paths stand at the same positions, as far as both
    paths reach. *)
Fixpoint dot_positions_agree (p q : string) : bool :=
  match p, q with
  | String c p', String d q' =>
      Bool.eqb (Ascii.eqb c ".") (Ascii.eqb d ".") && dot_positions_agree p' q'
  | _, _ => true
  end.

(** The file-log policy is absent or empty: no file is watched. *)
Definition fileLogs_absent_or_empty (fl : option (list FileLogEntry)) : Prop :=
  fl = None ∨ fl = Some [].

(** *** The XML merge helper *)

(** An element of xml.etree.ElementTree: tag, attributes, text, tail and
    the list of its sub-elements. A tree is given by its root. *)
#[warnings="-register-all"] Inductive Element : Type :=
| Elem (tag : string) (attrib : dict string) (text tail : option string)
    (children : list Element).

Definition tag (e : Element) : string :=
  match e with Elem t _ _ _ _ => t end.

Definition children (e : Element) : list Element :=
  match e with Elem _ _ _ _ c => c end.

Definition with_children (c : list Element) (e : Element) : Element :=
  match e with Elem t a x y _ => Elem t a x y c end.

(** The steps of a path made of tag names separated by slashes, the
    only form of path that this file passes to [find]. *)
Definition path_steps (path : string) : list string := split "/" path.

(** Positions of the elements selected by the steps, in document order.
    A position is the list of child indices from the root; each step
    selects, for every element selected so far, its children with the
    tag of the step. *)
Fixpoint select_positions (steps : list string) (e : Element) : list (list nat) :=
  match steps with
  | [] => [[]]
  | step :: steps' =>
      mjoin (imap (fun i c =>
                     if String.eqb (tag c) step
                     then (cons i) <$> select_positions steps' c
                     else [])
               (children e))
  end.

(** [tree.find(path)] as a position: the first selected element. *)
Definition find_position (root : Element) (path : string) : option (list nat) :=
  head (select_positions (path_steps path) root).

Fixpoint element_at (pos : list nat) (e : Element) : option Element :=
  match pos with
  | [] => Some e
  | i :: pos' =>
      match children e !! i with
      | Some c => element_at pos' c
      | None => None
      end
  end.

(** [tree.find(path)]: the element, or [None]. *)
Definition find (root : Element) (path : string) : option Element :=
  match find_position root path with
  | Some pos => element_at pos root
  | None => None
  end.

(** [elem.append(sub)] on the element at a position of the tree. *)
Fixpoint append_at (pos : list nat) (sub : Element) (e : Element) : Element :=
  match pos with
  | [] => with_children (children e ++ [sub]) e
  | i :: pos' => with_children (alter (append_at pos' sub) i (children e)) e
  end.

(** [copy_sub_elems(dst_xml, src_xml, path)]: the destination tree is
    updated in place, so the model returns it; the two trees are
    distinct objects. *)
Definition copy_sub_elems (dst_xml src_xml : Element) (path : string)
  : result Element :=
  let dst_elem := find_position dst_xml path in
  let src_elem := find src_xml path in
  match src_elem with
  | None => Ok dst_xml
  | Some src_elem =>
      for_each (children src_elem)
        (fun dst sub_elem =>
           match dst_elem with
           | Some pos => Ok (append_at pos sub_elem dst)
           | None =>
               Raise (AttributeError "'NoneType' object has no attribute 'append'")
           end)
        dst_xml
  end.

Section Merge.

(** [ET.fromstring] parses a document and returns its root, or raises;
    the parser is a parameter. *)
Variable fromstring : string -> result Element.

(** [copy_source_mdsdevent_eh_url_elems(mdsd_xml_tree,
    mdsd_logging_xml_string)]: the updated destination tree is
    returned; the string argument may be [None]. *)
Definition copy_source_mdsdevent_eh_url_elems (mdsd_xml_tree : Element)
  (mdsd_logging_xml_string : option string) : result Element :=
  if negb (truthy_opt_str mdsd_logging_xml_string) then Ok mdsd_xml_tree
  else
    mdsd_logging_xml_tree <-
      fromstring (default EmptyString mdsd_logging_xml_string) ;;
    t1 <- copy_sub_elems mdsd_xml_tree mdsd_logging_xml_tree "Sources" ;;
    t2 <- copy_sub_elems t1 mdsd_logging_xml_tree "Events/MdsdEvents" ;;
    copy_sub_elems t2 mdsd_logging_xml_tree "EventStreamingAnnotations".

End Merge.

End LadLoggingConfig.

(** ** VMBackup/main/MachineIdentity.py *)
Module MachineIdentity.

(** The file system maps a path to the content of the file there. A
    file object records its path, its mode and whether it is closed;
    the objects live in a store and are referred to by index, so that
    the attribute [self.file] can be reassigned while an object
    stays open. *)
Inductive mode : Type := ModeR | ModeW.

Record file_object : Type := {
  fo_path : string;
  fo_mode : mode;
  fo_closed : bool
}.

Record state : Type := {
  fs : gmap string string;
  objects : list file_object;
  store_identity_file : string;
  file : option nat
}.

Definition with_fs (f : gmap string string) (st : state) : state :=
  {| fs := f; objects := objects st;
     store_identity_file := store_identity_file st; file := file st |}.

Definition with_objects (o : list file_object) (st : state) : state :=
  {| fs := fs st; objects := o;
     store_identity_file := store_identity_file st; file := file st |}.

Definition with_file (h : option nat) (st : state) : state :=
  {| fs := fs st; objects := objects st;
     store_identity_file := store_identity_file st; file := h |}.

(** [__init__] *)
Definition init (f : gmap string string) (o : list file_object) : state :=
  {| fs := f; objects := o;
     store_identity_file := "./machine_identity_FD76C85E-406F-4CFA-8EB0-CF18B123365C";
     file := None |}.

Definition system_identity_file : string :=
  "/var/lib/waagent/HostingEnvironmentConfig.xml".

(** [os.path.exists(path)] *)
Definition exists_ (path : string) : M state bool :=
  gets (fun st => bool_decide (is_Some (fs st !! path))).

(** [open(path, 'r')] fails on a missing file; [open(path, 'w')]
    creates the file or truncates it. *)
Definition open (path : string) (m : mode) : M state nat :=
  fun st =>
    let h := length (objects st) in
    let obj := {| fo_path := path; fo_mode := m; fo_closed := false |} in
    match m with
    | ModeR =>
        match fs st !! path with
        | Some _ => (Ok h, with_objects (objects st ++ [obj]) st)
        | None => (Raise (IOError ("No such file or directory: '" +:+ path +:+ "'")), st)
        end
    | ModeW =>
        (Ok h, with_objects (objects st ++ [obj]) (with_fs (<[path := EmptyString]> (fs st)) st))
    end.

(** The error of an operation on a closed file object, a ValueError.
    Its text depends on the interpreter (Python 3 ends it with a
    period); the statements below speak of the exception class only. *)
Definition closed_error : exn := ValueError "I/O operation on closed file".

(** [f.read()] *)
Definition read (h : nat) : M state string :=
  fun st =>
    match objects st !! h with
    | None => (Raise (AttributeError "'NoneType' object has no attribute 'read'"), st)
    | Some obj =>
        if fo_closed obj then (Raise closed_error, st)
        else match fo_mode obj with
             | ModeW => (Raise (IOError "File not open for reading"), st)
             | ModeR => (Ok (default EmptyString (fs st !! fo_path obj)), st)
             end
    end.

(** [f.write(s)] *)
Definition write (h : nat) (s : string) : M state unit :=
  fun st =>
    match objects st !! h with
    | None => (Raise (AttributeError "'NoneType' object has no attribute 'write'"), st)
    | Some obj =>
        if fo_closed obj then (Raise closed_error, st)
        else match fo_mode obj with
             | ModeR => (Raise (IOError "File not open for writing"), st)
             | ModeW =>
                 (Ok tt,
                  with_fs (<[fo_path obj :=
                               default EmptyString (fs st !! fo_path obj) +:+ s]> (fs st)) st)
             end
    end.

(** [f.close()] *)
Definition close (h : nat) : M state unit :=
  modify (fun st =>
    with_objects
      (alter (fun obj => {| fo_path := fo_path obj; fo_mode := fo_mode obj;
                            fo_closed := true |}) h (objects st)) st).

(** The [finally] block shared by the three methods. *)
Definition close_self_file : M state unit :=
  fun st =>
    match file st with
    | None => (Ok tt, st)
    | Some h =>
        match objects st !! h with
        | Some obj => if fo_closed obj then (Ok tt, st) else close h st
        | None => (Ok tt, st)
        end
    end.

Section Methods.

(** [parseString(xmlText).getElementsByTagName('Role')[0].getAttribute('guid')]
    is the work of xml.dom.minidom; it is a parameter, and it may
    raise. *)
Variable role_guid : string -> result string.

Definition current_identity : M state (option string) :=
  _ <~ modify (with_file None) ;;
  try_finally
    (e <~ exists_ system_identity_file ;;
     if (e : bool) then
       h <~ open system_identity_file ModeR ;;
       _ <~ modify (with_file (Some h)) ;;
       f <~ gets file ;;
       xmlText <~ match f with
                  | Some h' => read h'
                  | None => raise (AttributeError "'NoneType' object has no attribute 'read'")
                  end ;;
       identity <~ lift (role_guid xmlText) ;;
       ret (Some identity)
     else ret None)
    close_self_file.

Definition save_identity : M state unit :=
  _ <~ modify (with_file None) ;;
  try_finally
    (p <~ gets store_identity_file ;;
     h <~ open p ModeW ;;
     _ <~ modify (with_file (Some h)) ;;
     machine_identity <~ current_identity ;;
     match machine_identity with
     | Some identity =>
         f <~ gets file ;;
         match f with
         | Some h' => write h' identity
         | None => raise (AttributeError "'NoneType' object has no attribute 'write'")
         end
     | None => ret tt
     end)
    close_self_file.

Definition stored_identity : M state (option string) :=
  _ <~ modify (with_file None) ;;
  try_finally
    (p <~ gets store_identity_file ;;
     e <~ exists_ p ;;
     if (e : bool) then
       h <~ open p ModeR ;;
       _ <~ modify (with_file (Some h)) ;;
       f <~ gets file ;;
       identity_stored <~ match f with
                          | Some h' => read h'
                          | None => raise (AttributeError "'NoneType' object has no attribute 'read'")
                          end ;;
       ret (Some identity_stored)
     else ret None)
    close_self_file.

End Methods.

End MachineIdentity.

(** ** VMBackup/main/Utils/WAAgentUtil.py *)
Module WAAgentUtil.

(** What the module reads of the process: the working directory, which
    paths are regular files, and the environment variables. *)
Record environment : Type := {
  getcwd : string;
  isfile : string -> bool;
  environ : dict string
}.

(** [os.pathsep] on Linux. *)
Definition pathsep : ascii := ":"%char.

Definition starts_with_slash (s : string) : bool :=
  match s with
  | String c _ => Ascii.eqb c "/"
  | EmptyString => false
  end.

Fixpoint ends_with_slash (s : string) : bool :=
  match s with
  | EmptyString => false
  | String c EmptyString => Ascii.eqb c "/"
  | String _ s' => ends_with_slash s'
  end.

(** [os.path.join(a, b)] of posixpath. *)
Definition path_join (a b : string) : string :=
  if starts_with_slash b then b
  else if negb (truthy_str a) || ends_with_slash a then a +:+ b
  else a +:+ "/" +:+ b.

(** The loop over [user_paths], which returns at the first file. *)
Fixpoint search_user_paths (env : environment) (user_paths : list string)
  : option string :=
  match user_paths with
  | [] => None
  | user_path :: rest =>
      let agentPath := path_join user_path "waagent" in
      if isfile env agentPath then Some agentPath
      else search_user_paths env rest
  end.

(** [os.environ['PYTHONPATH'].split(os.pathsep)] *)
Definition python_paths (env : environment) : result (list string) :=
  v <- getitem (environ env) "PYTHONPATH" ;; Ok (split pathsep v).

Definition searchWAAgent (env : environment) : result (option string) :=
  let agentPath := path_join (getcwd env) "main/WaagentLib.py" in
  if isfile env agentPath then Ok (Some agentPath)
  else
    user_paths <- python_paths env ;;
    Ok (search_user_paths env user_paths).

Definition searchWAAgentOld (env : environment) : result (option string) :=
  let agentPath := "/usr/sbin/waagent" in
  if isfile env agentPath then Ok (Some agentPath)
  else
    user_paths <- python_paths env ;;
    Ok (search_user_paths env user_paths).

(** [str(e)] for the exceptions that the searches raise. *)
Definition str_exn (e : exn) : string :=
  match e with
  | KeyError key => "'" +:+ key +:+ "'"
  | LadLoggingConfigException msg | AttributeError msg | TypeError msg
  | IOError msg | ValueError msg => msg
  end.

(** The loaded agent: whether it defines AddExtensionEvent, and the
    value of its WALAEventOperation.Enable, if it defines that class. *)
Record waagent_module : Type := {
  defines_AddExtensionEvent : bool;
  own_Enable : option string
}.

(** Outcome of a loader: the module, an ImportError, or another
    exception, with their messages. *)
Inductive load_result : Type :=
| Loaded (waagent : waagent_module)
| RaisesImportError (msg : string)
| RaisesOther (msg : string).

(** One recorded extension event. *)
Record event : Type := {
  ev_name : string;
  ev_op : string;
  ev_isSuccess : bool;
  ev_message : option string
}.

(** The globals of the module after its import, and the events that the
    agent has recorded. *)
Record module_state : Type := {
  pathUsed : nat;
  agentPath : string;
  waagent : waagent_module;
  __ExtensionName__ : option string;
  events : list event
}.

(** The import of the module ends with its globals or with
    [Exception(msg)]. *)
Inductive import_result : Type :=
| Imported (m : module_state)
| ImportFails (msg : string).

Section ModuleImport.

(** Loading the agent through importlib, and through imp, is done by
    the Python runtime; both loaders are parameters. *)
Variable load_importlib : string -> load_result.
Variable load_imp : string -> load_result.

(** The inner [try] statement: an ImportError falls back on imp, whose
    exceptions pass; another exception becomes the fixed message. *)
Definition load_waagent (path : string) : waagent_module + string :=
  match load_importlib path with
  | Loaded w => inl w
  | RaisesImportError _ =>
      match load_imp path with
      | Loaded w => inl w
      | RaisesImportError msg | RaisesOther msg => inr msg
      end
  | RaisesOther _ => inr "Can't load waagent."
  end.

(** The statements at module level, up to the definitions. *)
Definition import_module (env : environment) : import_result :=
  match searchWAAgent env with
  | Raise e => ImportFails (str_exn e)
  | Ok found =>
      let pathUsed := match found with Some _ => 1 | None => 0 end in
      match (match found with
             | Some p => Ok (Some p)
             | None => searchWAAgentOld env
             end) with
      | Raise e => ImportFails (str_exn e)
      | Ok None => ImportFails "Can't load new or old waagent. Agent path not found."
      | Ok (Some p) =>
          if truthy_str p then
            match load_waagent p with
            | inl w =>
                Imported {| pathUsed := pathUsed; agentPath := p; waagent := w;
                            __ExtensionName__ := None; events := [] |}
            | inr msg => ImportFails msg
            end
          else ImportFails "Can't load new or old waagent. Agent path not found."
      end
  end.

End ModuleImport.

(** [waagent.WALAEventOperation.Enable]: the class of the agent, or the
    one that the module defines when the agent has none. *)
Definition Enable (m : module_state) : string :=
  default "Enable" (own_Enable (waagent m)).

(** [waagent.AddExtensionEvent]: the function of the agent records the
    event; the dummy that replaces a missing one does nothing. *)
Definition waagent_AddExtensionEvent (ev : event) (m : module_state) : module_state :=
  if defines_AddExtensionEvent (waagent m) then
    {| pathUsed := pathUsed m; agentPath := agentPath m; waagent := waagent m;
       __ExtensionName__ := __ExtensionName__ m; events := events m ++ [ev] |}
  else m.

(** [InitExtensionEventLog(name)]: the assignment has no [global]
    declaration, so it binds a local name. *)
Definition InitExtensionEventLog (name : string) (m : module_state) : module_state :=
  let __ExtensionName__local := Some name in
  m.

(** The default of [name] is the value that the global had when the
    function was defined. *)
Definition AddExtensionEvent_default_name : option string := None.

(** [AddExtensionEvent(name, op, isSuccess, message)]; an argument that
    is not passed is [None] here and takes its default. *)
Definition AddExtensionEvent (name : option (option string)) (op : option string)
  (isSuccess : option bool) (message : option (option string))
  (m : module_state) : module_state :=
  let name := default AddExtensionEvent_default_name name in
  let op := default (Enable m) op in
  let isSuccess := default false isSuccess in
  let message := default None message in
  match name with
  | Some n =>
      waagent_AddExtensionEvent
        {| ev_name := n; ev_op := op; ev_isSuccess := isSuccess;
           ev_message := message |} m
  | None => m
  end.

Definition GetPathUsed (m : module_state) : nat := pathUsed m.

End WAAgentUtil.

(** ** Concrete inputs on which the statements below are exercised *)
Module Examples.
Import LadLoggingConfig.

(** A registry with a JsonBlob sink, an EventHub sink without sasURL, an
    EventHub sink with one, and a JsonBlob sink named LinuxSyslog. *)
Definition sc_example : SinkConfiguration :=
  {| get_sink_by_name := fun n =>
       if String.eqb n "MySink" then
         Some [("name", "MySink"); ("type", "JsonBlob")]
       else if String.eqb n "EH" then
         Some [("name", "EH"); ("type", "EventHub")]
       else if String.eqb n "EHok" then
         Some [("name", "EHok"); ("type", "EventHub"); ("sasURL", "https://eh/x")]
       else if String.eqb n "LinuxSyslog" then
         Some [("name", "LinuxSyslog"); ("type", "JsonBlob")]
       else None |}.

Definition syslog_policy (sinks : option string) (cfg : option (dict string))
  : option SyslogEvents :=
  Some {| se_sinks := sinks; se_syslogEventConfiguration := cfg |}.

Definition file_entry (file : string) (table sinks : option string) : FileLogEntry :=
  {| fl_file := Some file; fl_table := table; fl_sinks := sinks |}.

(** The instance that [__init__] builds, or a blank one if it raises. *)
Definition instance_of (se : option SyslogEvents)
  (fl : option (list FileLogEntry)) : t :=
  match __init__ se fl sc_example with
  | Ok self => self
  | Raise _ =>
      {| _syslogEvents := None; _fileLogs := None; _sinksConfig := sc_example;
         _fac_sev_map := None; _syslog_disabled := true;
         _file_table_map := None; _file_sinks_map := None;
         _oms_rsyslog_config := None; _oms_syslog_ng_config := None;
         _oms_mdsd_syslog_config := None; _oms_mdsd_filelog_config := None |}
  end.

(** A destination tree with a Sources element, and a source tree
    without one. *)
Definition elem (tag : string) (children : list Element) : Element :=
  Elem tag [] None None children.

Definition dst_tree : Element :=
  elem "MonitoringManagement"
    [ elem "Sources" [elem "Source" []];
      elem "Events" [elem "MdsdEvents" []] ].

Definition src_tree : Element :=
  elem "MonitoringManagement"
    [ elem "Events" [elem "MdsdEvents" [elem "MdsdEventSource" []]] ].

(** A configuration tree with the three sections, and a generated
    document, parsed, with one element in each section. *)
Definition mdsd_tree : Element :=
  elem "MonitoringManagement"
    [ elem "Schemas" [];
      elem "Sources" [elem "Source" []];
      elem "Events" [elem "MdsdEvents" []; elem "DerivedEvents" []];
      elem "EventStreamingAnnotations" [] ].

Definition logging_tree : Element :=
  elem "MonitoringManagement"
    [ elem "Sources" [elem "Source" []];
      elem "Events" [elem "MdsdEvents" [elem "MdsdEventSource" [elem "RouteEvent" []]]];
      elem "EventStreamingAnnotations" [elem "EventStreamingAnnotation" []] ].

(** A machine whose agent is the old one under /usr/sbin, with and
    without PYTHONPATH; a machine whose agent is on PYTHONPATH; and a
    loader that succeeds. *)
Definition env_old_agent (environ : dict string) : WAAgentUtil.environment :=
  {| WAAgentUtil.getcwd := "/var/lib/waagent/ext";
     WAAgentUtil.isfile := fun p => String.eqb p "/usr/sbin/waagent";
     WAAgentUtil.environ := environ |}.

Definition env_python_agent : WAAgentUtil.environment :=
  {| WAAgentUtil.getcwd := "/var/lib/waagent/ext";
     WAAgentUtil.isfile := fun p => String.eqb p "/opt/py/waagent";
     WAAgentUtil.environ := [("PYTHONPATH", "/usr/lib:/opt/py")] |}.

Definition env_no_agent : WAAgentUtil.environment :=
  {| WAAgentUtil.getcwd := "/var/lib/waagent/ext";
     WAAgentUtil.isfile := fun p => false;
     WAAgentUtil.environ := [("PYTHONPATH", "/usr/lib:/opt/py")] |}.

Definition load_ok (path : string) : WAAgentUtil.load_result :=
  WAAgentUtil.Loaded
    {| WAAgentUtil.defines_AddExtensionEvent := true;
       WAAgentUtil.own_Enable := Some "Enable" |}.

Definition module_of (env : WAAgentUtil.environment) : WAAgentUtil.module_state :=
  match WAAgentUtil.import_module load_ok load_ok env with
  | WAAgentUtil.Imported m => m
  | WAAgentUtil.ImportFails _ =>
      {| WAAgentUtil.pathUsed := 1; WAAgentUtil.agentPath := EmptyString;
         WAAgentUtil.waagent :=
           {| WAAgentUtil.defines_AddExtensionEvent := false;
              WAAgentUtil.own_Enable := None |};
         WAAgentUtil.__ExtensionName__ := None; WAAgentUtil.events := [] |}
  end.



End Examples.

(** * Theorems *)

Module NameMapper.
Import LadLoggingConfig.

(** ** The name mapper *)

Lemma dict_get_None_keys {V} (k : string) (d : dict V) :
  dict_get k d = None <-> k ∉ dict_keys d.
Proof.
  unfold dict_keys. induction d as [|[k' v] d IH]; simpl.
  - split; [intros _; apply not_elem_of_nil | done].
  - destruct (String.eqb_spec k k') as [->|Hne].
    + split; [done | intros H; exfalso; apply H; left].
    + rewrite IH, not_elem_of_cons. tauto.
Qed.

Lemma dict_get_Some_elem {V} (k : string) (v : V) (d : dict V) :
  dict_get k d = Some v -> (k, v) ∈ d.
Proof.
  induction d as [|[k' v'] d IH]; simpl; [done|].
  destruct (String.eqb_spec k k') as [->|Hne].
  - intros [= ->]. left.
  - intros H. right. auto.
Qed.

Lemma syslog_name_table_keys :
  dict_keys syslog_name_to_rsyslog_name_map
  = (facility_names.*1 ++ severity_names.*1)%list.
Proof. reflexivity. Qed.

(** C5 as stated fails: the table does not have 14 facility names, and
    its size is not about 21. *)
Lemma name_table_is_not_14_plus_8 :
  ¬ (length facility_names = 14
     ∧ length severity_names = 8
     ∧ length (dict_keys syslog_name_to_rsyslog_name_map) <= 14 + 8).
Proof. intros (H & _ & _). vm_compute in H. discriminate H. Qed.

(** C5, amended: the mapper is an exact-match lookup in a fixed table of
    20 facility names and 8 severity names, 28 distinct keys in all; a
    name of the table is mapped to its short form and every other
    input, also one that differs by case only, raises the
    invalid-name error. *)
Theorem syslog_name_to_rsyslog_name_table (syslog_name : string) :
  length facility_names = 20
  ∧ length severity_names = 8
  ∧ length (dict_keys syslog_name_to_rsyslog_name_map) = 28
  ∧ NoDup (dict_keys syslog_name_to_rsyslog_name_map)
  ∧ (syslog_name ∉ dict_keys syslog_name_to_rsyslog_name_map <->
     syslog_name_to_rsyslog_name syslog_name
     = Raise (LadLoggingConfigException
                ("Invalid syslog name given: " +:+ syslog_name)))
  ∧ (syslog_name ∈ dict_keys syslog_name_to_rsyslog_name_map <->
     ∃ v, (syslog_name, v) ∈ (facility_names ++ severity_names)%list
          ∧ syslog_name_to_rsyslog_name syslog_name = Ok v)
  ∧ syslog_name_to_rsyslog_name "LOG_USER" = Ok "user"
  ∧ syslog_name_to_rsyslog_name "log_user"
    = Raise (LadLoggingConfigException "Invalid syslog name given: log_user").
Proof.
  split; [reflexivity|]. split; [reflexivity|]. split; [reflexivity|].
  split; [refine (bool_decide_unpack _ _); vm_compute; exact I|].
  unfold syslog_name_to_rsyslog_name.
  split; [|split; [|split; reflexivity]].
  - rewrite <- dict_get_None_keys.
    destruct (dict_get syslog_name _); split; congruence.
  - destruct (dict_get syslog_name syslog_name_to_rsyslog_name_map) as [v|] eqn:E.
    + split.
      * intros _. exists v. split; [|done].
        by apply dict_get_Some_elem in E.
      * intros _. destruct (decide (syslog_name ∈
          dict_keys syslog_name_to_rsyslog_name_map)) as [|Hn]; [done|].
        apply dict_get_None_keys in Hn. congruence.
    + split.
      * intros Hin. apply dict_get_None_keys in E. done.
      * intros (v & _ & ?). discriminate.
Qed.

End NameMapper.

(** ** Construction and disabled syslog collection *)
Module Disabled.
Import LadLoggingConfig Examples.

Lemma init_fields se fl sc self :
  __init__ se fl sc = Ok self ->
  _syslogEvents self = se ∧ _fileLogs self = fl ∧ _sinksConfig self = sc
  ∧ _syslog_disabled self = negb (truthy_opt_dict (_fac_sev_map self))
  ∧ _oms_rsyslog_config self = None ∧ _oms_syslog_ng_config self = None
  ∧ _oms_mdsd_syslog_config self = None ∧ _oms_mdsd_filelog_config self = None
  ∧ init_body se fl = Ok (_fac_sev_map self, _file_table_map self, _file_sinks_map self).
Proof.
  unfold __init__.
  destruct (init_body se fl) as [[[m tm] sm]|e]; [|by destruct e].
  intros [= <-]. simpl. repeat split; reflexivity.
Qed.

Ltac case_comprehensions :=
  repeat match goal with
         | |- context [comprehension ?f ?l] => destruct (comprehension f l); simpl
         end.

Lemma init_fac_sev_map se fl sc self :
  __init__ se fl sc = Ok self ->
  _fac_sev_map self
  = if truthy_syslogEvents se then se ≫= se_syslogEventConfiguration else None.
Proof.
  intros Hinit. apply init_fields in Hinit as (_&_&_&_&_&_&_&_&Hb).
  revert Hb. unfold init_body.
  destruct (truthy_syslogEvents se) eqn:Ht.
  - destruct se as [[sinks [m|]]|]; simpl; try discriminate;
      destruct (truthy_fileLogs fl); simpl; case_comprehensions;
      intros [= <- _ _] || discriminate; reflexivity.
  - simpl. destruct (truthy_fileLogs fl); simpl; case_comprehensions;
      intros [= <- _ _] || discriminate; reflexivity.
Qed.

Lemma init_disabled se fl sc self :
  __init__ se fl sc = Ok self -> mapping_absent_or_empty se ->
  _syslog_disabled self = true.
Proof.
  intros Hinit Hse. pose proof (init_fac_sev_map _ _ _ _ Hinit) as Hm.
  apply init_fields in Hinit as (_&_&_&Hd&_). rewrite Hd, Hm.
  destruct se as [[sinks cfg]|]; simpl in *; [|done].
  destruct Hse as [->| ->]; by destruct sinks.
Qed.

(** C7: when the event-configuration mapping of the syslog policy is
    absent or empty, the rsyslog generator, the syslog-ng generator and
    the fluentd syslog source generator of the constructed instance all
    return the empty string. *)
Theorem disabled_syslog_generators_return_empty
  (get_syslog_ng_src_name : string) se fl sc self :
  __init__ se fl sc = Ok self ->
  mapping_absent_or_empty se ->
  (get_oms_rsyslog_config self).1 = Ok EmptyString
  ∧ (get_oms_syslog_ng_config get_syslog_ng_src_name self).1 = Ok EmptyString
  ∧ get_oms_fluentd_syslog_src_config self = Ok EmptyString.
Proof.
  intros Hinit Hse.
  pose proof (init_disabled _ _ _ _ Hinit Hse) as Hd.
  apply init_fields in Hinit as (_&_&_&_&Hr&Hn&_).
  unfold get_oms_rsyslog_config, get_oms_syslog_ng_config,
    get_oms_fluentd_syslog_src_config.
  rewrite Hr, Hn, Hd. simpl. done.
Qed.

Lemma disabled_syslog_generators_return_empty_witness :
  let self := instance_of (syslog_policy (Some "MySink") (Some [])) None in
  (get_oms_rsyslog_config self).1 = Ok EmptyString
  ∧ (get_oms_syslog_ng_config "s_src" self).1 = Ok EmptyString
  ∧ get_oms_fluentd_syslog_src_config self = Ok EmptyString.
Proof.
  apply (disabled_syslog_generators_return_empty "s_src"
           (syslog_policy (Some "MySink") (Some [])) None sc_example).
  - reflexivity.
  - right. reflexivity.
Defined.

(** C8: for the syslog policy with the single pair LOG_USER, LOG_ERR and
    the empty sinks string, the rsyslog generator returns the line
    user.err, two spaces, the relay address, and a line feed. *)
Theorem rsyslog_config_user_err fl sc self :
  __init__ (Some {| se_sinks := Some EmptyString;
                    se_syslogEventConfiguration := Some [("LOG_USER", "LOG_ERR")] |})
    fl sc = Ok self ->
  (get_oms_rsyslog_config self).1 = Ok ("user.err  @127.0.0.1:%SYSLOG_PORT%" +:+ nl).
Proof.
  intros Hinit. pose proof (init_fac_sev_map _ _ _ _ Hinit) as Hm.
  apply init_fields in Hinit as (_&_&_&Hd&Hr&_).
  simpl in Hm. unfold get_oms_rsyslog_config.
  rewrite Hr, Hd, Hm. reflexivity.
Qed.

Lemma rsyslog_config_user_err_witness :
  (get_oms_rsyslog_config
     (instance_of (syslog_policy (Some EmptyString) (Some [("LOG_USER", "LOG_ERR")]))
        (Some [file_entry "/var/log/a" (Some "T") None]))).1
  = Ok ("user.err  @127.0.0.1:%SYSLOG_PORT%" +:+ nl).
Proof.
  apply (rsyslog_config_user_err
           (Some [file_entry "/var/log/a" (Some "T") None]) sc_example).
  reflexivity.
Defined.

(** C1 as stated fails: with an empty event-configuration mapping the
    event-pipeline syslog generator returns the empty string, which is
    no instance of the document template. *)
Lemma mdsd_syslog_config_disabled_is_no_document :
  let self := instance_of (syslog_policy None (Some [])) None in
  __init__ (syslog_policy None (Some [])) None sc_example = Ok self
  ∧ (get_oms_mdsd_syslog_config self).1 = Ok EmptyString
  ∧ ∀ sources events eh_urls,
      _mdsd_sources_events_config_template sources events eh_urls ≠ EmptyString.
Proof.
  split; [reflexivity|]. split; [reflexivity|].
  intros sources events eh_urls. discriminate.
Qed.

(** C1, amended: the event-pipeline syslog generator short-circuits like
    the rsyslog and syslog-ng generators: when the event-configuration
    mapping is absent or empty it returns the empty string, whatever
    the sinks of the policy are, and stores the empty string in its
    cache. *)
Theorem mdsd_syslog_config_disabled_returns_empty se fl sc self :
  __init__ se fl sc = Ok self ->
  mapping_absent_or_empty se ->
  get_oms_mdsd_syslog_config self
  = (Ok EmptyString, set_oms_mdsd_syslog_config EmptyString self).
Proof.
  intros Hinit Hse.
  pose proof (init_disabled _ _ _ _ Hinit Hse) as Hd.
  apply init_fields in Hinit as (_&_&_&_&_&_&Hc&_).
  unfold get_oms_mdsd_syslog_config, __generate_oms_mdsd_syslog_config.
  rewrite Hc, Hd. reflexivity.
Qed.

Lemma mdsd_syslog_config_disabled_returns_empty_witness :
  let self := instance_of (syslog_policy (Some "LinuxSyslog,Unknown") (Some [])) None in
  get_oms_mdsd_syslog_config self
  = (Ok EmptyString, set_oms_mdsd_syslog_config EmptyString self).
Proof.
  apply (mdsd_syslog_config_disabled_returns_empty
           (syslog_policy (Some "LinuxSyslog,Unknown") (Some [])) None sc_example).
  - reflexivity.
  - right. reflexivity.
Defined.

End Disabled.

(** ** Loops and sinks *)
Module Sinks.
Import LadLoggingConfig Examples.

Lemma for_each_app {S A} (xs ys : list A) (body : S -> A -> result S) (s : S) :
  for_each (xs ++ ys) body s = (s' <- for_each xs body s ;; for_each ys body s').
Proof.
  revert s. induction xs as [|x xs IH]; intros s; simpl; [done|].
  destruct (body s x); simpl; [apply IH | done].
Qed.

(** A loop whose body raises at an element, from every state, raises. *)
Lemma for_each_raises_at {S A} (xs : list A) (body : S -> A -> result S) x :
  x ∈ xs -> (∀ s, is_ok (body s x) = false) ->
  ∀ s, is_ok (for_each xs body s) = false.
Proof.
  intros Hin Hx. induction xs as [|y ys IH]; [by apply elem_of_nil in Hin|].
  intros s. simpl. destruct (body s y) as [s'|e] eqn:Hb; [|done].
  apply elem_of_cons in Hin as [->|Hin]; [|by apply IH].
  specialize (Hx s). rewrite Hb in Hx. discriminate.
Qed.

(** A loop whose body succeeds on every element of a prefix, from
    every state, reaches the element after the prefix. *)
Lemma for_each_reaches {S A} (pre post : list A) (body : S -> A -> result S) x e :
  Forall (fun y => ∀ s, is_ok (body s y) = true) pre ->
  (∀ s, body s x = Raise e) ->
  ∀ s, for_each (pre ++ x :: post) body s = Raise e.
Proof.
  intros Hpre Hx. induction Hpre as [|y ys Hy _ IH]; intros s; simpl.
  - by rewrite Hx.
  - specialize (Hy s). destruct (body s y); [apply IH | discriminate].
Qed.

Lemma is_ok_false {A} (r : result A) : is_ok r = false -> ∃ e, r = Raise e.
Proof. destruct r; [discriminate | eauto]. Qed.

Lemma is_ok_true {A} (r : result A) : is_ok r = true -> ∃ a, r = Ok a.
Proof. destruct r; [eauto | discriminate]. Qed.

(** The resolver on an EventHub sink without sasURL. *)
Lemma resolver_eventhub_without_sasURL self sink_name :
  eventhub_without_sasURL (_sinksConfig self) sink_name ->
  __generate_routeevent_and_eh_url_for_extra_sink self sink_name
  = Raise (LadLoggingConfigException (sasURL_not_specified_msg sink_name)).
Proof.
  intros (sink & Hs & Ht & Hu).
  unfold __generate_routeevent_and_eh_url_for_extra_sink.
  rewrite Hs. destruct sink as [|p sink]; [discriminate|].
  cbn [truthy_list negb]. unfold getitem, dict_contains.
  rewrite Ht, Hu. reflexivity.
Qed.

Lemma syslog_sink_body_ok self acc sink_name :
  sink_name ≠ "LinuxSyslog" ->
  is_ok (__generate_routeevent_and_eh_url_for_extra_sink self sink_name) = true ->
  is_ok (syslog_sink_body self acc sink_name) = true.
Proof.
  intros Hne Hok. unfold syslog_sink_body.
  destruct (String.eqb_spec sink_name "LinuxSyslog"); [done|].
  destruct (__generate_routeevent_and_eh_url_for_extra_sink self sink_name);
    [done | discriminate].
Qed.

Lemma syslog_sink_body_raise self acc sink_name e :
  sink_name ≠ "LinuxSyslog" ->
  __generate_routeevent_and_eh_url_for_extra_sink self sink_name = Raise e ->
  syslog_sink_body self acc sink_name = Raise e.
Proof.
  intros Hne Hr. unfold syslog_sink_body.
  destruct (String.eqb_spec sink_name "LinuxSyslog"); [done|].
  by rewrite Hr.
Qed.

Lemma filelog_sink_body_ok self acc sink_name :
  is_ok (__generate_routeevent_and_eh_url_for_extra_sink self sink_name) = true ->
  is_ok (filelog_sink_body self acc sink_name) = true.
Proof.
  intros Hok. unfold filelog_sink_body.
  destruct (__generate_routeevent_and_eh_url_for_extra_sink self sink_name);
    [done | discriminate].
Qed.

Lemma filelog_sink_body_raise self acc sink_name e :
  __generate_routeevent_and_eh_url_for_extra_sink self sink_name = Raise e ->
  filelog_sink_body self acc sink_name = Raise e.
Proof. intros Hr. unfold filelog_sink_body. by rewrite Hr. Qed.

(** The syslog generator in terms of its loop. *)
Lemma mdsd_syslog_config_loop_raises self se sinks e :
  _syslog_disabled self = false ->
  _oms_mdsd_syslog_config self = None ->
  _syslogEvents self = Some se ->
  se_sinks se = Some sinks ->
  for_each (split "," sinks) (syslog_sink_body self)
    (_mdsd_per_routeevent_config_template "LinuxSyslog" EmptyString, EmptyString)
  = Raise e ->
  get_oms_mdsd_syslog_config self = (Raise e, self).
Proof.
  intros Hd Hc Hse Hs Hloop.
  unfold get_oms_mdsd_syslog_config, __generate_oms_mdsd_syslog_config.
  rewrite Hc, Hd, Hse, Hs. simpl. rewrite Hloop. reflexivity.
Qed.

Lemma init_enabled se fl sc self cfg :
  __init__ (Some se) fl sc = Ok self ->
  se_syslogEventConfiguration se = Some cfg -> cfg ≠ [] ->
  _syslog_disabled self = false.
Proof.
  intros Hinit Hcfg Hne.
  pose proof (Disabled.init_fac_sev_map _ _ _ _ Hinit) as Hm.
  apply Disabled.init_fields in Hinit as (_&_&_&Hd&_).
  rewrite Hd, Hm. simpl. rewrite Hcfg.
  destruct (se_sinks se); simpl; by destruct cfg.
Qed.

Lemma syslog_loop_reserved self pre post :
  Forall (fun n =>
            is_ok (__generate_routeevent_and_eh_url_for_extra_sink self n) = true) pre ->
  ∀ acc, for_each (pre ++ "LinuxSyslog" :: post) (syslog_sink_body self) acc
         = Raise (LadLoggingConfigException reserved_name_msg).
Proof.
  induction 1 as [|y ys Hy _ IH]; intros acc; [reflexivity|].
  cbn [app for_each]. unfold syslog_sink_body at 1.
  destruct (String.eqb_spec y "LinuxSyslog"); [reflexivity|].
  destruct (__generate_routeevent_and_eh_url_for_extra_sink self y);
    [apply IH | discriminate].
Qed.

(** C2 as stated fails in three ways: the file-log generator has no
    reserved-name check and returns a document for a sink named
    LinuxSyslog that the registry defines; the syslog generator returns
    the empty string when collection is disabled; and an undefined sink
    listed before LinuxSyslog raises the unknown-sink error instead. *)
Lemma LinuxSyslog_sink_is_not_always_rejected :
  is_ok (get_oms_mdsd_filelog_config
           (instance_of None
              (Some [file_entry "/var/log/a" None (Some "LinuxSyslog")]))).1 = true
  ∧ (get_oms_mdsd_syslog_config
       (instance_of (syslog_policy (Some "LinuxSyslog") (Some [])) None)).1
    = Ok EmptyString
  ∧ (get_oms_mdsd_syslog_config
       (instance_of (syslog_policy (Some "Unknown,LinuxSyslog")
                       (Some [("LOG_USER", "LOG_ERR")])) None)).1
    = Raise (LadLoggingConfigException (sink_not_defined_msg "Unknown")).
Proof. repeat split. Qed.

(** C2, amended: for a syslog policy with a non-empty event-configuration
    mapping whose sinks list names LinuxSyslog, the event-pipeline syslog
    generator raises and returns no string, and nothing is cached; the
    exception is the reserved-name error when every sink listed before
    LinuxSyslog resolves. The file-log generator makes no such check. *)
Theorem syslog_sink_LinuxSyslog_is_rejected se fl sc self cfg sinks pre post :
  __init__ (Some se) fl sc = Ok self ->
  se_syslogEventConfiguration se = Some cfg -> cfg ≠ [] ->
  se_sinks se = Some sinks ->
  split "," sinks = (pre ++ "LinuxSyslog" :: post)%list ->
  (∃ e, get_oms_mdsd_syslog_config self = (Raise e, self))
  ∧ _oms_mdsd_syslog_config self = None
  ∧ (Forall (fun n =>
               is_ok (__generate_routeevent_and_eh_url_for_extra_sink self n) = true)
       pre ->
     get_oms_mdsd_syslog_config self
     = (Raise (LadLoggingConfigException reserved_name_msg), self)).
Proof.
  intros Hinit Hcfg Hne Hsinks Hsplit.
  pose proof (init_enabled _ _ _ _ _ Hinit Hcfg Hne) as Hd.
  apply Disabled.init_fields in Hinit as (Hse&_&_&_&_&_&Hc&_).
  split; [|split; [done|]].
  - destruct (is_ok_false
                (for_each (split "," sinks) (syslog_sink_body self)
                   (_mdsd_per_routeevent_config_template "LinuxSyslog" EmptyString,
                    EmptyString))) as [e He].
    + apply for_each_raises_at with (x := "LinuxSyslog").
      * rewrite Hsplit. apply elem_of_app. right. left.
      * intros s. reflexivity.
    + exists e. by eapply mdsd_syslog_config_loop_raises.
  - intros Hpre. eapply mdsd_syslog_config_loop_raises; [done..|].
    rewrite Hsplit. by apply syslog_loop_reserved.
Qed.

Lemma syslog_sink_LinuxSyslog_is_rejected_witness :
  let self := instance_of (syslog_policy (Some "MySink,LinuxSyslog,EH")
                             (Some [("LOG_USER", "LOG_ERR")])) None in
  (∃ e, get_oms_mdsd_syslog_config self = (Raise e, self))
  ∧ _oms_mdsd_syslog_config self = None
  ∧ (Forall (fun n =>
               is_ok (__generate_routeevent_and_eh_url_for_extra_sink self n) = true)
       ["MySink"] ->
     get_oms_mdsd_syslog_config self
     = (Raise (LadLoggingConfigException reserved_name_msg), self)).
Proof.
  apply (syslog_sink_LinuxSyslog_is_rejected
           {| se_sinks := Some "MySink,LinuxSyslog,EH";
              se_syslogEventConfiguration := Some [("LOG_USER", "LOG_ERR")] |}
           None sc_example _ [("LOG_USER", "LOG_ERR")] "MySink,LinuxSyslog,EH"
           ["MySink"] ["EH"]).
  - reflexivity.
  - reflexivity.
  - discriminate.
  - reflexivity.
  - reflexivity.
Defined.

End Sinks.

(** ** EventHub sinks without a sasURL *)
Module EventHub.
Import LadLoggingConfig Examples Sinks.

Lemma filelog_sink_body_unfold self acc x :
  filelog_sink_body self acc x
  = match __generate_routeevent_and_eh_url_for_extra_sink self x with
    | Ok p => Ok (acc.1 +:+ p.1, acc.2 +:+ p.2)
    | Raise e => Raise e
    end.
Proof. reflexivity. Qed.

Lemma filelog_inner_is_ok self xs acc acc' :
  is_ok (for_each xs (filelog_sink_body self) acc)
  = is_ok (for_each xs (filelog_sink_body self) acc').
Proof.
  revert acc acc'. induction xs as [|x xs IH]; intros acc acc'; [done|].
  cbn [for_each]. rewrite !filelog_sink_body_unfold.
  destruct (__generate_routeevent_and_eh_url_for_extra_sink self x);
    [apply IH | done].
Qed.

Lemma filelog_file_body_is_ok self tm sm acc acc' k :
  is_ok (filelog_file_body self tm sm acc k)
  = is_ok (filelog_file_body self tm sm acc' k).
Proof.
  unfold filelog_file_body.
  destruct acc as [[a b] c], acc' as [[a' b'] c'].
  destruct (getitem tm k) as [table|]; simpl; [|done].
  destruct (getitem sm k) as [sinks|]; simpl; [|done].
  destruct (negb (truthy_str table) && negb (truthy_str sinks)); [done|].
  destruct (truthy_str sinks); [|done].
  match goal with
  | |- is_ok (Py.bind (for_each ?xs ?f ?s1) _) = is_ok (Py.bind (for_each ?xs ?f ?s2) _) =>
      pose proof (filelog_inner_is_ok self xs s1 s2) as H;
      destruct (for_each xs f s1), (for_each xs f s2)
  end; simpl in *; congruence.
Qed.

(** The body of the file loop at a file whose sinks are given. *)
Lemma filelog_file_body_inner self tm sm a b c k table sinks :
  dict_get k tm = Some table ->
  dict_get k sm = Some sinks -> sinks ≠ EmptyString ->
  filelog_file_body self tm sm (a, b, c) k
  = (inner <- for_each (split "," sinks) (filelog_sink_body self)
                (if truthy_str table
                 then EmptyString +:+
                        _mdsd_per_routeevent_config_template table EmptyString
                 else EmptyString, c) ;;
     Ok (a +:+ _mdsd_per_source_config_template (source_name_of k),
         b +:+ _mdsd_per_event_source_config_template (source_name_of k) inner.1,
         inner.2)).
Proof.
  intros Ht Hs Hne. unfold filelog_file_body, getitem. rewrite Ht, Hs.
  destruct sinks as [|ch sinks]; [done|]. cbn [truthy_str negb Py.bind].
  rewrite andb_false_r. reflexivity.
Qed.

Lemma filelog_file_body_raises self tm sm k sinks n :
  dict_get k sm = Some sinks -> sinks ≠ EmptyString ->
  n ∈ split "," sinks ->
  is_ok (__generate_routeevent_and_eh_url_for_extra_sink self n) = false ->
  ∀ acc, is_ok (filelog_file_body self tm sm acc k) = false.
Proof.
  intros Hs Hne Hin Hn [[a b] c].
  destruct (dict_get k tm) as [table|] eqn:Ht.
  - rewrite (filelog_file_body_inner _ _ _ _ _ _ _ _ _ Ht Hs Hne).
    match goal with
    | |- is_ok (Py.bind (for_each ?xs ?f ?s) _) = false =>
        assert (is_ok (for_each xs f s) = false) as H;
        [|by destruct (for_each xs f s)]
    end.
    apply for_each_raises_at with (x := n); [done|].
    intros s. rewrite filelog_sink_body_unfold.
    by destruct (__generate_routeevent_and_eh_url_for_extra_sink self n).
  - unfold filelog_file_body, getitem. by rewrite Ht.
Qed.

Lemma filelog_file_body_reaches self tm sm k table sinks pre n post e :
  dict_get k tm = Some table ->
  dict_get k sm = Some sinks -> sinks ≠ EmptyString ->
  split "," sinks = (pre ++ n :: post)%list ->
  Forall (fun x =>
            is_ok (__generate_routeevent_and_eh_url_for_extra_sink self x) = true) pre ->
  __generate_routeevent_and_eh_url_for_extra_sink self n = Raise e ->
  ∀ acc, filelog_file_body self tm sm acc k = Raise e.
Proof.
  intros Ht Hs Hne Hsplit Hpre Hn [[a b] c].
  rewrite (filelog_file_body_inner _ _ _ _ _ _ _ _ _ Ht Hs Hne).
  rewrite Hsplit, (for_each_reaches pre post (filelog_sink_body self) n e);
    [reflexivity| |].
  - eapply Forall_impl; [exact Hpre|]. intros x Hx s.
    by apply filelog_sink_body_ok.
  - intros s. by apply filelog_sink_body_raise.
Qed.

(** The file-log generator in terms of its loop. *)
Lemma generate_oms_mdsd_filelog_config_loop self tm sm :
  truthy_fileLogs (_fileLogs self) = true ->
  _file_table_map self = Some tm ->
  _file_sinks_map self = Some sm ->
  __generate_oms_mdsd_filelog_config self
  = (acc <- for_each (sorted (dict_keys tm)) (filelog_file_body self tm sm)
              (EmptyString, EmptyString, EmptyString) ;;
     Ok (_mdsd_sources_events_config_template acc.1.1 acc.1.2 acc.2)).
Proof.
  intros Hfl Htm Hsm. unfold __generate_oms_mdsd_filelog_config.
  rewrite Hfl, Htm, Hsm. reflexivity.
Qed.

Lemma mdsd_filelog_config_loop_raises self tm sm e :
  truthy_fileLogs (_fileLogs self) = true ->
  _oms_mdsd_filelog_config self = None ->
  _file_table_map self = Some tm ->
  _file_sinks_map self = Some sm ->
  for_each (sorted (dict_keys tm)) (filelog_file_body self tm sm)
    (EmptyString, EmptyString, EmptyString) = Raise e ->
  get_oms_mdsd_filelog_config self = (Raise e, self).
Proof.
  intros Hfl Hc Htm Hsm Hloop.
  unfold get_oms_mdsd_filelog_config.
  rewrite (generate_oms_mdsd_filelog_config_loop _ _ _ Hfl Htm Hsm), Hc, Hloop.
  reflexivity.
Qed.

Lemma sorted_keys_get {V} (k : string) (d : dict V) :
  k ∈ sorted (dict_keys d) -> dict_get k d ≠ None.
Proof.
  unfold sorted. rewrite merge_sort_Permutation.
  intros Hin Hnone. by apply NameMapper.dict_get_None_keys in Hnone.
Qed.

(** C6 as stated fails in three ways: with collection disabled the
    syslog generator returns the empty string although its sinks name
    the sink; an undefined sink listed first raises the unknown-sink
    error instead; and a file entry that names the sink is discarded
    when a later entry has the same file, so that a document is
    returned. *)
Lemma eventhub_without_sasURL_is_not_always_reported :
  eventhub_without_sasURL sc_example "EH"
  ∧ (get_oms_mdsd_syslog_config
       (instance_of (syslog_policy (Some "EH") (Some [])) None)).1
    = Ok EmptyString
  ∧ (get_oms_mdsd_syslog_config
       (instance_of (syslog_policy (Some "Unknown,EH")
                       (Some [("LOG_USER", "LOG_ERR")])) None)).1
    = Raise (LadLoggingConfigException (sink_not_defined_msg "Unknown"))
  ∧ is_ok (get_oms_mdsd_filelog_config
             (instance_of None
                (Some [file_entry "/var/log/a" None (Some "EH");
                       file_entry "/var/log/a" (Some "T") None]))).1 = true.
Proof.
  split; [|repeat split].
  exists [("name", "EH"); ("type", "EventHub")]. repeat split.
Qed.

(** C6, amended: the sink resolver raises the missing-sasURL error for
    every sink that the registry defines with type EventHub and without
    sasURL. The syslog generator of an instance with collection enabled
    whose sinks list names such a sink, and the file-log generator of an
    instance in which the sinks kept for a processed file name it, raise
    and return no string, and the instance with its unset cache is
    unchanged; the exception is the missing-sasURL error when all that
    is processed before this sink succeeds. *)
Theorem eventhub_sink_without_sasURL_raises self n :
  eventhub_without_sasURL (_sinksConfig self) n ->
  __generate_routeevent_and_eh_url_for_extra_sink self n
  = Raise (LadLoggingConfigException (sasURL_not_specified_msg n))
  ∧ (∀ se sinks pre post,
       _syslog_disabled self = false ->
       _oms_mdsd_syslog_config self = None ->
       _syslogEvents self = Some se ->
       se_sinks se = Some sinks ->
       split "," sinks = (pre ++ n :: post)%list ->
       (∃ e, get_oms_mdsd_syslog_config self = (Raise e, self))
       ∧ (n ≠ "LinuxSyslog" ->
          Forall (fun x =>
                    x ≠ "LinuxSyslog"
                    ∧ is_ok (__generate_routeevent_and_eh_url_for_extra_sink self x)
                      = true) pre ->
          get_oms_mdsd_syslog_config self
          = (Raise (LadLoggingConfigException (sasURL_not_specified_msg n)), self)))
  ∧ (∀ tm sm kpre k kpost sinks pre post,
       truthy_fileLogs (_fileLogs self) = true ->
       _oms_mdsd_filelog_config self = None ->
       _file_table_map self = Some tm ->
       _file_sinks_map self = Some sm ->
       sorted (dict_keys tm) = (kpre ++ k :: kpost)%list ->
       dict_get k sm = Some sinks -> sinks ≠ EmptyString ->
       split "," sinks = (pre ++ n :: post)%list ->
       (∃ e, get_oms_mdsd_filelog_config self = (Raise e, self))
       ∧ (Forall (fun k' =>
                    is_ok (filelog_file_body self tm sm
                             (EmptyString, EmptyString, EmptyString) k') = true) kpre ->
          Forall (fun x =>
                    is_ok (__generate_routeevent_and_eh_url_for_extra_sink self x)
                    = true) pre ->
          get_oms_mdsd_filelog_config self
          = (Raise (LadLoggingConfigException (sasURL_not_specified_msg n)), self))).
Proof.
  intros Hn. pose proof (resolver_eventhub_without_sasURL _ _ Hn) as Hr.
  split; [exact Hr|]. split.
  - intros se sinks pre post Hd Hc Hse Hs Hsplit. split.
    + destruct (is_ok_false
                  (for_each (split "," sinks) (syslog_sink_body self)
                     (_mdsd_per_routeevent_config_template "LinuxSyslog" EmptyString,
                      EmptyString))) as [e He].
      * apply for_each_raises_at with (x := n).
        -- rewrite Hsplit. apply elem_of_app. right. left.
        -- intros s. unfold syslog_sink_body.
           destruct (String.eqb n "LinuxSyslog"); [done|]. by rewrite Hr.
      * exists e. by eapply mdsd_syslog_config_loop_raises.
    + intros Hne Hpre. eapply mdsd_syslog_config_loop_raises; [done..|].
      rewrite Hsplit. apply for_each_reaches.
      * eapply Forall_impl; [exact Hpre|]. intros x [Hx1 Hx2] s.
        by apply syslog_sink_body_ok.
      * intros s. by apply syslog_sink_body_raise.
  - intros tm sm kpre k kpost sinks pre post Hfl Hc Htm Hsm Hkeys Hs Hne Hsplit.
    assert (k ∈ sorted (dict_keys tm)) as Hk.
    { rewrite Hkeys. apply elem_of_app. right. left. }
    split.
    + destruct (is_ok_false
                  (for_each (sorted (dict_keys tm)) (filelog_file_body self tm sm)
                     (EmptyString, EmptyString, EmptyString))) as [e He].
      * apply for_each_raises_at with (x := k); [done|].
        apply filelog_file_body_raises with (sinks := sinks) (n := n); [done..| |].
        -- rewrite Hsplit. apply elem_of_app. right. left.
        -- by rewrite Hr.
      * exists e. by eapply mdsd_filelog_config_loop_raises.
    + intros Hkpre Hpre. eapply mdsd_filelog_config_loop_raises; [done..|].
      rewrite Hkeys. apply for_each_reaches.
      * eapply Forall_impl; [exact Hkpre|]. intros k' Hk' s.
        by rewrite (filelog_file_body_is_ok _ _ _ s (EmptyString, EmptyString, EmptyString)).
      * apply sorted_keys_get in Hk.
        destruct (dict_get k tm) as [table|] eqn:Ht; [|done].
        by eapply filelog_file_body_reaches.
Qed.

Lemma eventhub_sink_without_sasURL_raises_witness :
  let self :=
    instance_of (syslog_policy (Some "MySink,EH") (Some [("LOG_USER", "LOG_ERR")]))
      (Some [file_entry "/var/log/a" (Some "T") (Some "MySink");
             file_entry "/var/log/b" None (Some "EHok,EH")]) in
  __generate_routeevent_and_eh_url_for_extra_sink self "EH"
  = Raise (LadLoggingConfigException (sasURL_not_specified_msg "EH"))
  ∧ get_oms_mdsd_syslog_config self
    = (Raise (LadLoggingConfigException (sasURL_not_specified_msg "EH")), self)
  ∧ get_oms_mdsd_filelog_config self
    = (Raise (LadLoggingConfigException (sasURL_not_specified_msg "EH")), self).
Proof.
  intros self.
  assert (eventhub_without_sasURL (_sinksConfig self) "EH") as Hn.
  { exists [("name", "EH"); ("type", "EventHub")]. repeat split. }
  destruct (eventhub_sink_without_sasURL_raises self "EH" Hn) as (H1 & H2 & H3).
  split; [exact H1|]. split.
  - apply (H2 {| se_sinks := Some "MySink,EH";
                 se_syslogEventConfiguration := Some [("LOG_USER", "LOG_ERR")] |}
             "MySink,EH" ["MySink"] []); try reflexivity.
    + discriminate.
    + repeat constructor. discriminate.
  - apply (H3 [("/var/log/a", "T"); ("/var/log/b", "")]
             [("/var/log/a", "MySink"); ("/var/log/b", "EHok,EH")]
             ["/var/log/a"] "/var/log/b" [] "EHok,EH" ["EHok"] []); try reflexivity.
    + discriminate.
    + repeat constructor.
    + repeat constructor.
Defined.

End EventHub.
(** ** Source names of watched files *)
Module SourceName.
Import LadLoggingConfig.

(** The replacement sends two characters to the same one exactly when
    they are equal or each of them is a slash or a dot. *)
Lemma replace_char_eq (c d : ascii) :
  (if Ascii.eqb c "/" then "."%char else c)
  = (if Ascii.eqb d "/" then "."%char else d)
  <-> Ascii.eqb c d || (slash_or_dot c && slash_or_dot d) = true.
Proof.
  unfold slash_or_dot.
  destruct (Ascii.eqb_spec c d) as [->|Hcd]; [by split|].
  destruct (Ascii.eqb_spec c "/") as [Hc1|Hc1], (Ascii.eqb_spec d "/") as [Hd1|Hd1],
    (Ascii.eqb_spec c ".") as [Hc2|Hc2], (Ascii.eqb_spec d ".") as [Hd2|Hd2];
    cbn; split; congruence.
Qed.

Lemma replace_slash_eq p q :
  replace "/" "." p = replace "/" "." q <-> slash_dot_variants p q = true.
Proof.
  revert q. induction p as [|c p IH]; intros [|d q]; cbn [replace slash_dot_variants];
    try (split; [done | discriminate]); [done|].
  rewrite andb_true_iff, <- IH, <- replace_char_eq. split.
  - by intros [= -> ->].
  - by intros [-> ->].
Qed.

Lemma source_name_eq p q :
  source_name_of p = source_name_of q <-> slash_dot_variants p q = true.
Proof.
  rewrite <- replace_slash_eq. unfold source_name_of. split.
  - by intros Heq%(inj (String.app "mdsd.filelog")).
  - by intros ->.
Qed.

(** Variants whose dots stand at the same positions are equal. *)
Lemma slash_dot_variants_same_dots p q :
  slash_dot_variants p q = true -> dot_positions_agree p q = true -> p = q.
Proof.
  revert q. induction p as [|c p IH]; intros [|d q];
    cbn [slash_dot_variants dot_positions_agree]; try done.
  intros [Hcd Hpq]%andb_true_iff [Hdots Hagree]%andb_true_iff.
  f_equal; [|by apply IH].
  apply orb_true_iff in Hcd as [Heq|Hsd]; [by apply Ascii.eqb_eq|].
  apply Bool.eqb_prop in Hdots. unfold slash_or_dot in Hsd.
  destruct (Ascii.eqb_spec c "/") as [Hc1|Hc1], (Ascii.eqb_spec d "/") as [Hd1|Hd1],
    (Ascii.eqb_spec c ".") as [Hc2|Hc2], (Ascii.eqb_spec d ".") as [Hd2|Hd2];
    cbn in Hsd, Hdots; congruence.
Qed.

(** C3 as stated fails: two distinct paths that differ by a slash
    against a dot have the same source name. *)
Lemma source_name_collision :
  "/var/log/a/log" ≠ "/var/log/a.log"
  ∧ source_name_of "/var/log/a/log" = source_name_of "/var/log/a.log".
Proof. split; [discriminate | reflexivity]. Qed.

(** C3, amended: the derivation of the source name, the prefix
    mdsd.filelog followed by the path with every slash replaced by a
    dot, gives two paths the same name exactly when the paths have the
    same length and differ only at positions where one has a slash and
    the other a dot.  So two distinct paths whose dots stand at the
    same positions have distinct source names; paths without a dot are
    a case of this. *)
Theorem source_name_collisions_are_slash_dot_variants p q :
  (source_name_of p = source_name_of q <-> slash_dot_variants p q = true)
  ∧ (dot_positions_agree p q = true -> p ≠ q ->
     source_name_of p ≠ source_name_of q)
  ∧ (has_char "." p = false -> has_char "." q = false -> p ≠ q ->
     source_name_of p ≠ source_name_of q).
Proof.
  split; [apply source_name_eq|]. split.
  - intros Hdots Hne Heq%source_name_eq.
    by apply Hne, slash_dot_variants_same_dots.
  - intros Hp Hq Hne Heq%source_name_eq.
    apply Hne, slash_dot_variants_same_dots; [done|].
    clear Hne Heq. revert q Hq Hp.
    induction p as [|c p IH]; intros [|d q]; cbn [has_char dot_positions_agree];
      try done.
    intros [Hd Hq]%orb_false_elim [Hc Hp]%orb_false_elim.
    rewrite (IH q Hq Hp), andb_true_r.
    by rewrite Hc, Hd.
Qed.

Lemma source_name_collisions_are_slash_dot_variants_witness :
  source_name_of "/var/log/a.log" ≠ source_name_of "/var/log/b.log"
  ∧ source_name_of "/var/log/syslog" ≠ source_name_of "/var/log/messages"
  ∧ slash_dot_variants "/var/log/a/log" "/var/log/a.log" = true.
Proof.
  split; [|split].
  - apply (proj1 (proj2 (source_name_collisions_are_slash_dot_variants
                           "/var/log/a.log" "/var/log/b.log")));
      [reflexivity | discriminate].
  - apply (proj2 (proj2 (source_name_collisions_are_slash_dot_variants
                           "/var/log/syslog" "/var/log/messages")));
      [reflexivity | reflexivity | discriminate].
  - apply (proj1 (proj1 (source_name_collisions_are_slash_dot_variants
                           "/var/log/a/log" "/var/log/a.log"))).
    reflexivity.
Defined.

End SourceName.

(** ** The XML merge helper *)
Module XmlMerge.
Import LadLoggingConfig.

Lemma children_with_children c e : children (with_children c e) = c.
Proof. by destruct e. Qed.

Lemma with_children_twice c c' e :
  with_children c (with_children c' e) = with_children c e.
Proof. by destruct e. Qed.

Lemma element_at_append_at pos sub e d :
  element_at pos e = Some d ->
  element_at pos (append_at pos sub e)
  = Some (with_children (children d ++ [sub]) d).
Proof.
  revert e. induction pos as [|i pos IH]; intros e; simpl.
  - by intros [= ->].
  - destruct (children e !! i) as [c|] eqn:Hc; [|done]. intros Hd.
    rewrite children_with_children, list_lookup_alter_eq, Hc. simpl. by apply IH.
Qed.

Lemma append_all pos subs e d :
  element_at pos e = Some d ->
  ∃ e', for_each subs (fun dst sub => Ok (append_at pos sub dst)) e = Ok e'
        ∧ element_at pos e' = Some (with_children (children d ++ subs) d).
Proof.
  revert e d. induction subs as [|sub subs IH]; intros e d Hd; simpl.
  - exists e. split; [done|]. rewrite app_nil_r, Hd. by destruct d.
  - apply element_at_append_at with (sub := sub) in Hd.
    destruct (IH _ _ Hd) as (e' & He & Hat). exists e'. split; [done|].
    by rewrite Hat, children_with_children, with_children_twice, <- app_assoc.
Qed.

(** When the path is found in both trees, the sub-elements of the
    source element are appended, in order, to the destination element. *)
Lemma copy_sub_elems_present dst_xml src_xml path pos d s :
  find_position dst_xml path = Some pos ->
  element_at pos dst_xml = Some d ->
  find src_xml path = Some s ->
  ∃ dst', copy_sub_elems dst_xml src_xml path = Ok dst'
          ∧ element_at pos dst' = Some (with_children (children d ++ children s) d).
Proof.
  intros Hpos Hd Hs. unfold copy_sub_elems. rewrite Hpos, Hs.
  by apply append_all.
Qed.

(** C9: when the path is absent from the source tree, copy_sub_elems
    returns without touching the destination tree, so the children of
    the destination element and their number are unchanged. *)
Theorem copy_sub_elems_absent_in_source dst_xml src_xml path :
  find src_xml path = None ->
  ∃ dst', copy_sub_elems dst_xml src_xml path = Ok dst'
          ∧ dst' = dst_xml
          ∧ children <$> find dst' path = children <$> find dst_xml path
          ∧ (length ∘ children) <$> find dst' path
            = (length ∘ children) <$> find dst_xml path.
Proof.
  intros Hsrc. exists dst_xml. unfold copy_sub_elems. by rewrite Hsrc.
Qed.

Lemma copy_sub_elems_absent_in_source_witness :
  ∃ dst', copy_sub_elems Examples.dst_tree Examples.src_tree "Sources" = Ok dst'
          ∧ dst' = Examples.dst_tree
          ∧ children <$> find dst' "Sources"
            = children <$> find Examples.dst_tree "Sources"
          ∧ (length ∘ children) <$> find dst' "Sources"
            = (length ∘ children) <$> find Examples.dst_tree "Sources".
Proof.
  apply (copy_sub_elems_absent_in_source Examples.dst_tree Examples.src_tree "Sources").
  reflexivity.
Defined.

End XmlMerge.

(** ** The machine-identity helper *)
Module Identity.
Import MachineIdentity.

Section WithParser.
Variable role_guid : string -> result string.

Lemma current_identity_absent st :
  fs st !! system_identity_file = None ->
  current_identity role_guid st = (Ok None, with_file None st).
Proof.
  intros Hsys.
  unfold current_identity, bindM, modify, try_finally, exists_, gets, ret.
  cbn [fs with_file]. rewrite Hsys. reflexivity.
Qed.

Lemma save_identity_absent st :
  fs st !! system_identity_file = None ->
  store_identity_file st ≠ system_identity_file ->
  save_identity role_guid st
  = (Ok tt,
     {| fs := <[store_identity_file st := EmptyString]> (fs st);
        objects := objects st ++ [{| fo_path := store_identity_file st;
                                     fo_mode := ModeW; fo_closed := false |}];
        store_identity_file := store_identity_file st;
        file := None |}).
Proof.
  intros Hsys Hne.
  unfold save_identity, bindM, modify, try_finally, gets, ret, open.
  cbn [fs with_file with_fs with_objects store_identity_file objects file].
  rewrite current_identity_absent.
  - reflexivity.
  - simpl. by rewrite lookup_insert_ne.
Qed.

Lemma stored_identity_empty f o p :
  f !! p = Some EmptyString ->
  (stored_identity {| fs := f; objects := o; store_identity_file := p; file := None |}).1
  = Ok (Some EmptyString).
Proof.
  intros Hp.
  unfold stored_identity, bindM, modify, try_finally, exists_, gets, ret, open, read.
  cbn [fs with_file with_fs with_objects store_identity_file objects file].
  rewrite Hp, bool_decide_eq_true_2 by eauto.
  cbn [fs with_file with_fs with_objects store_identity_file objects file].
  rewrite Hp.
  cbn [fs with_file with_fs with_objects store_identity_file objects file].
  rewrite list_lookup_middle by done.
  cbn [fo_closed fo_mode fo_path]. rewrite Hp.
  unfold close_self_file.
  cbn [fs with_file with_fs with_objects store_identity_file objects file].
  rewrite list_lookup_middle by done. reflexivity.
Qed.

End WithParser.

(** C4 as stated fails: on a machine without the system identity file
    and without a store file, save_identity leaves the store file
    present and empty, and stored_identity then returns the empty
    string and not the absent value. *)
Lemma save_identity_creates_the_store_file :
  let st := init ∅ [] in
  let st' := (save_identity (fun xml => Ok xml) st).2 in
  fs st !! system_identity_file = None
  ∧ fs st !! store_identity_file st = None
  ∧ (current_identity (fun xml => Ok xml) st).1 = Ok None
  ∧ fs st' !! store_identity_file st' = Some EmptyString
  ∧ (stored_identity st').1 = Ok (Some EmptyString)
  ∧ (stored_identity st').1 ≠ Ok None.
Proof. vm_compute. repeat split. discriminate. Qed.

(** C4, amended: when the system identity file does not exist,
    current_identity returns the absent value and leaves the file system
    as it is; save_identity writes no content but its open for writing
    creates or truncates the store file, which is left present and
    empty, and stored_identity afterwards returns the empty string. *)
Theorem missing_system_identity_file
  (role_guid : string -> result string) (st : state) :
  fs st !! system_identity_file = None ->
  store_identity_file st ≠ system_identity_file ->
  (current_identity role_guid st).1 = Ok None
  ∧ fs (current_identity role_guid st).2 = fs st
  ∧ (save_identity role_guid st).1 = Ok tt
  ∧ fs (save_identity role_guid st).2
    = <[store_identity_file st := EmptyString]> (fs st)
  ∧ (stored_identity (save_identity role_guid st).2).1 = Ok (Some EmptyString).
Proof.
  intros Hsys Hne.
  rewrite current_identity_absent, save_identity_absent by done.
  repeat split. apply stored_identity_empty. apply lookup_insert_eq.
Qed.

Lemma missing_system_identity_file_witness :
  let st := init ∅ [] in
  (current_identity (fun xml => Ok xml) st).1 = Ok None
  ∧ fs (current_identity (fun xml => Ok xml) st).2 = fs st
  ∧ (save_identity (fun xml => Ok xml) st).1 = Ok tt
  ∧ fs (save_identity (fun xml => Ok xml) st).2
    = <[store_identity_file st := EmptyString]> (fs st)
  ∧ (stored_identity (save_identity (fun xml => Ok xml) st).2).1
    = Ok (Some EmptyString).
Proof.
  apply (missing_system_identity_file (fun xml => Ok xml) (init ∅ [])).
  - reflexivity.
  - discriminate.
Defined.

End Identity.

(** ** Dicts built from pairs *)
Module Dicts.

Section Dict.
Context {V : Type}.
Implicit Types (d : dict V) (ps : list (string * V)) (k : string) (v : V).

Lemma dict_get_set_eq k v d : dict_get k (dict_set k v d) = Some v.
Proof.
  induction d as [|[k' v'] d IH]; simpl.
  - by rewrite String.eqb_refl.
  - destruct (String.eqb_spec k k') as [->|Hne]; simpl.
    + by rewrite String.eqb_refl.
    + by destruct (String.eqb_spec k k').
Qed.

Lemma dict_get_set_ne k k' v d :
  k ≠ k' -> dict_get k' (dict_set k v d) = dict_get k' d.
Proof.
  intros Hne. induction d as [|[k0 v0] d IH]; simpl.
  - by destruct (String.eqb_spec k' k) as [->|].
  - destruct (String.eqb_spec k k0) as [->|Hk]; simpl.
    + by destruct (String.eqb_spec k' k0) as [->|].
    + by rewrite IH.
Qed.

Lemma dict_keys_set k v d :
  dict_keys (dict_set k v d)
  = if dict_contains k d then dict_keys d else (dict_keys d ++ [k])%list.
Proof.
  unfold dict_contains, dict_keys.
  induction d as [|[k' v'] d IH]; csimpl; [done|].
  destruct (String.eqb_spec k k') as [->|Hne]; csimpl; [done|].
  rewrite IH. by destruct (dict_get k d).
Qed.

Lemma dict_keys_set_NoDup k v d :
  NoDup (dict_keys d) -> NoDup (dict_keys (dict_set k v d)).
Proof.
  intros Hd. rewrite dict_keys_set. unfold dict_contains.
  destruct (dict_get k d) eqn:E; [done|].
  apply NameMapper.dict_get_None_keys in E.
  apply NoDup_app. split; [done|]. split; [|apply NoDup_singleton].
  intros x Hx Hx'. apply list_elem_of_singleton in Hx' as ->. done.
Qed.

Lemma fold_dict_set_get k ps d :
  dict_get k (fold_left (fun d p => dict_set p.1 p.2 d) ps d)
  = match lookup_last k ps with
    | Some v => Some v
    | None => dict_get k d
    end.
Proof.
  revert d. induction ps as [|[k' v'] ps IH]; intros d; simpl; [done|].
  rewrite IH. destruct (lookup_last k ps); [done|].
  destruct (String.eqb_spec k k') as [->|Hne].
  - apply dict_get_set_eq.
  - by apply dict_get_set_ne.
Qed.

Lemma fold_dict_set_NoDup ps d :
  NoDup (dict_keys d) ->
  NoDup (dict_keys (fold_left (fun d p => dict_set p.1 p.2 d) ps d)).
Proof.
  revert d. induction ps as [|[k v] ps IH]; intros d Hd; simpl; [done|].
  apply IH. by apply dict_keys_set_NoDup.
Qed.

Lemma dict_of_pairs_get k ps : dict_get k (dict_of_pairs ps) = lookup_last k ps.
Proof.
  unfold dict_of_pairs. rewrite fold_dict_set_get.
  by destruct (lookup_last k ps).
Qed.

Lemma dict_of_pairs_NoDup ps : NoDup (dict_keys (dict_of_pairs ps)).
Proof. apply fold_dict_set_NoDup. constructor. Qed.

Lemma lookup_last_None k ps : lookup_last k ps = None <-> k ∉ ps.*1.
Proof.
  induction ps as [|[k' v'] ps IH]; simpl.
  - split; [intros _; apply not_elem_of_nil | done].
  - rewrite not_elem_of_cons, <- IH.
    destruct (lookup_last k ps); [intuition congruence|].
    destruct (String.eqb_spec k k'); intuition congruence.
Qed.

Lemma dict_of_pairs_keys k ps : k ∈ dict_keys (dict_of_pairs ps) <-> k ∈ ps.*1.
Proof.
  destruct (decide (k ∈ ps.*1)) as [Hin|Hnin].
  - split; [done|]. intros _.
    destruct (decide (k ∈ dict_keys (dict_of_pairs ps))) as [|Hn]; [done|].
    apply NameMapper.dict_get_None_keys in Hn.
    rewrite dict_of_pairs_get in Hn. by apply lookup_last_None in Hn.
  - split; [|done]. intros Hk. exfalso.
    apply lookup_last_None in Hnin. rewrite <- dict_of_pairs_get in Hnin.
    by apply NameMapper.dict_get_None_keys in Hnin.
Qed.



End Dict.




End Dicts.

(** ** Repeated file paths in the file-log policy *)
Module FileLogs.
Import LadLoggingConfig Examples Dicts.

Lemma comprehension_Forall2 {A B} (f : A -> result B) xs ys :
  comprehension f xs = Ok ys <-> Forall2 (fun x y => f x = Ok y) xs ys.
Proof.
  revert ys. induction xs as [|x xs IH]; intros ys; simpl.
  - split; [intros [= <-]; constructor | by inversion 1].
  - destruct (f x) as [y|e] eqn:Hx.
    + destruct (comprehension f xs) as [ys'|e].
      * split.
        -- intros [= <-]. constructor; [done|]. by apply IH.
        -- inversion 1 as [|? y' ? ys'' Hy Hys]; subst.
           apply IH in Hys. congruence.
      * split; [done|]. inversion 1 as [|? y' ? ys'' Hy Hys]; subst.
        by apply IH in Hys.
    + split; [done|]. inversion 1; congruence.
Qed.

Lemma file_table_pair_Ok e p :
  file_table_pair e = Ok p <->
  fl_file e = Some p.1 ∧ p.2 = default EmptyString (fl_table e).
Proof.
  unfold file_table_pair, entry_file. destruct p as [k v].
  destruct (fl_file e); simpl; [|intuition congruence].
  split; [by intros [= -> ->] | by intros [[= ->] ->]].
Qed.


(** The keys of the pairs are the files of the entries. *)
Lemma pairs_keys {V} (l : list FileLogEntry) (ps : list (string * V)) f
  (g : FileLogEntry -> result (string * V)) :
  (∀ e p, g e = Ok p -> fl_file e = Some p.1) ->
  Forall2 (fun e p => g e = Ok p) l ps ->
  (f ∈ ps.*1 <-> ∃ e, e ∈ l ∧ fl_file e = Some f).
Proof.
  intros Hg. induction 1 as [|e p l ps Hep _ IH]; csimpl.
  - split; [by intros ?%elem_of_nil | by intros (e & ?%elem_of_nil & _)].
  - rewrite elem_of_cons, IH. apply Hg in Hep. split.
    + intros [->|(e' & ? & ?)]; [exists e | exists e']; split; try done;
        [left | by right].
    + intros (e' & [->|?]%elem_of_cons & Hf); [left; congruence | right; eauto].
Qed.

(** The instance built from a non-empty file-log policy. *)
Lemma init_file_maps se fl sc self :
  __init__ se (Some fl) sc = Ok self -> fl ≠ [] ->
  ∃ tps sps,
    Forall2 (fun e p => file_table_pair e = Ok p) fl tps
    ∧ Forall2 (fun e p => file_sinks_pair e = Ok p) fl sps
    ∧ _file_table_map self = Some (dict_of_pairs tps)
    ∧ _file_sinks_map self = Some (dict_of_pairs sps).
Proof.
  intros Hinit Hne.
  apply Disabled.init_fields in Hinit as (_&_&_&_&_&_&_&_&Hb).
  revert Hb. unfold init_body.
  match goal with
  | |- Py.bind ?r _ = _ -> _ => destruct r as [m|]; [|done]
  end.
  cbn [Py.bind]. destruct fl as [|e fl]; [done|].
  cbn [truthy_fileLogs truthy_list default from_option id].
  destruct (comprehension file_table_pair (e :: fl)) as [tps|] eqn:Ht; [|by cbn [Py.bind]].
  destruct (comprehension file_sinks_pair (e :: fl)) as [sps|] eqn:Hs; [|by cbn [Py.bind]].
  cbn [Py.bind]. intros [= _ <- <-]. exists tps, sps.
  by rewrite <- !comprehension_Forall2.
Qed.





Lemma fluentd_filelog_src_config_keys self tm :
  truthy_fileLogs (_fileLogs self) = true ->
  _file_table_map self = Some tm ->
  get_oms_fluentd_filelog_src_config self
  = Ok (fluentd_tail_src_config_template (join "," (dict_keys tm))).
Proof.
  intros Hfl Htm. unfold get_oms_fluentd_filelog_src_config.
  by rewrite Hfl, Htm.
Qed.



Lemma string_app_assoc (s1 s2 s3 : string) :
  (s1 +:+ s2) +:+ s3 = s1 +:+ s2 +:+ s3.
Proof.
  induction s1 as [|c s1 IH]; [reflexivity|].
  change (String c ((s1 +:+ s2) +:+ s3) = String c (s1 +:+ s2 +:+ s3)).
  by rewrite IH.
Qed.

Lemma string_app_nil_r (s : string) : s +:+ EmptyString = s.
Proof.
  induction s as [|c s IH]; [reflexivity|].
  change (String c (s +:+ EmptyString) = String c s). by rewrite IH.
Qed.











End FileLogs.

(** ** The machine-identity helper: the three methods on every state *)
Module IdentityMethods.
Import MachineIdentity.

Ltac run_methods :=
  unfold current_identity, save_identity, stored_identity, bindM, modify,
    try_finally, exists_, gets, ret, lift, raise, open, read, write,
    close_self_file;
  cbn [fs with_file with_fs with_objects store_identity_file objects file].

Ltac step :=
  cbn [fs with_file with_fs with_objects store_identity_file objects file
         fo_closed fo_mode fo_path default from_option id Py.bind].

(** Closing the file object that was opened last. *)
Lemma close_last f o p m sf h :
  close (length o)
    {| fs := f;
       objects := o ++ [{| fo_path := p; fo_mode := m; fo_closed := false |}];
       store_identity_file := sf; file := h |}
  = (Ok tt,
     {| fs := f;
        objects := o ++ [{| fo_path := p; fo_mode := m; fo_closed := true |}];
        store_identity_file := sf; file := h |}).
Proof.
  unfold close, modify, with_objects. step.
  by rewrite alter_app_r_alt, Nat.sub_diag.
Qed.

Section WithParser.
Variable role_guid : string -> result string.

Lemma current_identity_present st xml :
  fs st !! system_identity_file = Some xml ->
  current_identity role_guid st
  = ((g <- role_guid xml ;; Ok (Some g)),
     {| fs := fs st;
        objects := objects st ++ [{| fo_path := system_identity_file;
                                     fo_mode := ModeR; fo_closed := true |}];
        store_identity_file := store_identity_file st;
        file := Some (length (objects st)) |}).
Proof.
  intros Hsys. run_methods.
  rewrite Hsys, bool_decide_eq_true_2 by eauto. step. rewrite Hsys. step.
  rewrite list_lookup_middle by done. step. rewrite Hsys. step.
  destruct (role_guid xml) as [g|e]; step;
    rewrite list_lookup_middle by done; step;
    unfold with_file; step; by rewrite close_last.
Qed.

Lemma stored_identity_present st content :
  fs st !! store_identity_file st = Some content ->
  stored_identity st
  = (Ok (Some content),
     {| fs := fs st;
        objects := objects st ++ [{| fo_path := store_identity_file st;
                                     fo_mode := ModeR; fo_closed := true |}];
        store_identity_file := store_identity_file st;
        file := Some (length (objects st)) |}).
Proof.
  intros Hsto. run_methods.
  rewrite Hsto, bool_decide_eq_true_2 by eauto. step. rewrite Hsto. step.
  rewrite list_lookup_middle by done. step. rewrite Hsto. step.
  rewrite list_lookup_middle by done; step;
    unfold with_file; step; by rewrite close_last.
Qed.

Lemma stored_identity_absent st :
  fs st !! store_identity_file st = None ->
  stored_identity st = (Ok None, with_file None st).
Proof. intros Hsto. run_methods. by rewrite Hsto. Qed.

Lemma save_identity_present st xml :
  fs st !! system_identity_file = Some xml ->
  store_identity_file st ≠ system_identity_file ->
  save_identity role_guid st
  = (match role_guid xml with
     | Ok _ => Raise closed_error
     | Raise e => Raise e
     end,
     {| fs := <[store_identity_file st := EmptyString]> (fs st);
        objects := objects st ++
                     [{| fo_path := store_identity_file st;
                         fo_mode := ModeW; fo_closed := false |};
                      {| fo_path := system_identity_file;
                         fo_mode := ModeR; fo_closed := true |}];
        store_identity_file := store_identity_file st;
        file := Some (S (length (objects st))) |}).
Proof.
  intros Hsys Hne.
  unfold save_identity, bindM, modify, try_finally, gets, ret, open. step.
  rewrite (current_identity_present _ xml)
    by (step; by rewrite lookup_insert_ne).
  step. rewrite length_app, Nat.add_1_r, <- app_assoc. cbn [app].
  assert (∀ (o : list file_object) a b, (o ++ [a; b])%list !! S (length o) = Some b)
    as Hlast.
  { intros o a b. by rewrite (lookup_app_r o), Nat.sub_succ_l, Nat.sub_diag by lia. }
  destruct (role_guid xml) as [g|e]; step;
    unfold write, close_self_file; step; rewrite ?Hlast; step; rewrite ?Hlast; by step.
Qed.

(** X17: current_identity returns the guid of the system identity file, or
    the absent value when there is no such file, or the exception of
    the parser; it never changes a file, and the file object that it
    opens is closed when it returns, also when the parser raises. *)
Theorem current_identity_reads_and_closes st :
  let st' := (current_identity role_guid st).2 in
  (current_identity role_guid st).1
  = match fs st !! system_identity_file with
    | None => Ok None
    | Some xml => g <- role_guid xml ;; Ok (Some g)
    end
  ∧ fs st' = fs st
  ∧ ∃ new, objects st' = (objects st ++ new)%list
           ∧ Forall (fun o => fo_closed o = true) new.
Proof.
  destruct (fs st !! system_identity_file) as [xml|] eqn:Hsys.
  - rewrite (current_identity_present _ xml) by done.
    repeat split. eexists. split; [reflexivity|]. by repeat constructor.
  - rewrite Identity.current_identity_absent by done.
    repeat split. exists []. by rewrite app_nil_r.
Qed.

(** X19: save_identity never persists an identity: whatever the system
    identity file holds, afterwards the store file exists and is
    empty, stored_identity returns the empty string, and the file
    object opened on the store file has not been closed. *)
Theorem save_identity_leaves_store_empty st :
  store_identity_file st ≠ system_identity_file ->
  let st' := (save_identity role_guid st).2 in
  fs st' = <[store_identity_file st := EmptyString]> (fs st)
  ∧ (stored_identity st').1 = Ok (Some EmptyString)
  ∧ objects st' !! length (objects st)
    = Some {| fo_path := store_identity_file st;
              fo_mode := ModeW; fo_closed := false |}.
Proof.
  intros Hne. destruct (fs st !! system_identity_file) as [xml|] eqn:Hsys.
  - rewrite (save_identity_present _ xml) by done. cbn zeta. cbn [fst snd]. step.
    split; [done|]. split.
    + rewrite (stored_identity_present _ EmptyString); [done|].
      step. apply lookup_insert_eq.
    + by rewrite (list_lookup_middle (objects st)).
  - rewrite Identity.save_identity_absent by done. cbn zeta. cbn [fst snd]. step.
    split; [done|]. split.
    + rewrite (stored_identity_present _ EmptyString); [done|].
      step. apply lookup_insert_eq.
    + by rewrite list_lookup_middle.
Qed.

(** X20: when the system identity file exists and its guid is parsed,
    save_identity raises a ValueError, the error of a write to a
    closed file: current_identity has replaced self.file by the
    system file object, which is closed.  The text of the error is
    the interpreter's and is left open. *)
Theorem save_identity_raises_when_identity_found st xml g :
  fs st !! system_identity_file = Some xml ->
  role_guid xml = Ok g ->
  store_identity_file st ≠ system_identity_file ->
  (current_identity role_guid st).1 = Ok (Some g)
  ∧ ∃ text, (save_identity role_guid st).1 = Raise (ValueError text).
Proof.
  intros Hsys Hg Hne.
  rewrite (current_identity_present _ xml), (save_identity_present _ xml) by done.
  rewrite Hg. split; [done|]. by eexists.
Qed.

End WithParser.

(** X18: stored_identity returns the content of the store file, or the absent
    value when there is no such file; it never changes a file, and the
    file object that it opens is closed when it returns. *)
Theorem stored_identity_reads_and_closes st :
  let st' := (stored_identity st).2 in
  (stored_identity st).1 = Ok (fs st !! store_identity_file st)
  ∧ fs st' = fs st
  ∧ ∃ new, objects st' = (objects st ++ new)%list
           ∧ Forall (fun o => fo_closed o = true) new.
Proof.
  destruct (fs st !! store_identity_file st) as [content|] eqn:Hsto.
  - rewrite (stored_identity_present _ content) by done.
    repeat split. eexists. split; [reflexivity|]. by repeat constructor.
  - rewrite stored_identity_absent by done.
    repeat split. exists []. by rewrite app_nil_r.
Qed.

Lemma save_identity_leaves_store_empty_witness :
  let st := init {[ system_identity_file := "<Role guid='g'/>" ]} [] in
  let st' := (save_identity (fun xml => Ok xml) st).2 in
  fs st' = <[store_identity_file st := EmptyString]> (fs st)
  ∧ (stored_identity st').1 = Ok (Some EmptyString)
  ∧ objects st' !! length (objects st)
    = Some {| fo_path := store_identity_file st;
              fo_mode := ModeW; fo_closed := false |}.
Proof.
  apply (save_identity_leaves_store_empty (fun xml => Ok xml)
           (init {[ system_identity_file := "<Role guid='g'/>" ]} [])).
  discriminate.
Defined.

Lemma save_identity_raises_when_identity_found_witness :
  let st := init {[ system_identity_file := "<Role guid='g'/>" ]} [] in
  (current_identity (fun xml => Ok "g") st).1 = Ok (Some "g")
  ∧ ∃ text, (save_identity (fun xml => Ok "g") st).1 = Raise (ValueError text).
Proof.
  apply (save_identity_raises_when_identity_found (fun xml => Ok "g")
           (init {[ system_identity_file := "<Role guid='g'/>" ]} [])
           "<Role guid='g'/>" "g").
  - reflexivity.
  - reflexivity.
  - discriminate.
Defined.

End IdentityMethods.

(** ** The agent wrapper: search, import and event logging *)
Module AgentSearch.
Import WAAgentUtil.

(** The loop returns the first entry that holds an agent file. *)
Lemma search_user_paths_Some env user_paths p :
  search_user_paths env user_paths = Some p <->
  ∃ pre u post,
    user_paths = (pre ++ u :: post)%list
    ∧ p = path_join u "waagent" ∧ isfile env p = true
    ∧ Forall (fun u' => isfile env (path_join u' "waagent") = false) pre.
Proof.
  induction user_paths as [|u0 rest IH]; simpl.
  - split; [done|]. intros (pre & u & post & Heq & _). by destruct pre.
  - destruct (isfile env (path_join u0 "waagent")) eqn:Hu0.
    + split.
      * intros [= <-]. exists [], u0, rest. by repeat split.
      * intros (pre & u & post & Heq & -> & Hp & Hpre).
        destruct pre as [|u1 pre]; simplify_eq/=; [done|].
        apply Forall_cons in Hpre as [Hu1 _]. congruence.
    + rewrite IH. split.
      * intros (pre & u & post & -> & -> & Hp & Hpre).
        exists (u0 :: pre), u, post. repeat split; [done|]. by constructor.
      * intros (pre & u & post & Heq & -> & Hp & Hpre).
        destruct pre as [|u1 pre]; simplify_eq/=; [congruence|].
        apply Forall_cons in Hpre as [_ Hpre]. by exists pre, u, post.
Qed.

Lemma search_user_paths_None env user_paths :
  search_user_paths env user_paths = None <->
  Forall (fun u => isfile env (path_join u "waagent") = false) user_paths.
Proof.
  induction user_paths as [|u0 rest IH]; simpl; [by split|].
  destruct (isfile env (path_join u0 "waagent")) eqn:Hu0.
  - split; [done|]. intros [? _]%Forall_cons. congruence.
  - rewrite IH. split; [by constructor | by intros [_ ?]%Forall_cons].
Qed.

(** A joined path is never empty when its second component is not. *)
Lemma path_join_truthy a b : truthy_str b = true -> truthy_str (path_join a b) = true.
Proof.
  intros Hb. unfold path_join.
  destruct (starts_with_slash b); [done|].
  destruct (negb (truthy_str a) || ends_with_slash a); destruct a; simpl; done.
Qed.

Lemma search_user_paths_truthy env user_paths p :
  search_user_paths env user_paths = Some p -> truthy_str p = true.
Proof.
  intros (pre & u & post & _ & -> & _)%search_user_paths_Some.
  by apply path_join_truthy.
Qed.

Lemma search_user_paths_isfile env user_paths p :
  search_user_paths env user_paths = Some p -> isfile env p = true.
Proof. by intros (pre & u & post & _ & _ & ? & _)%search_user_paths_Some. Qed.

(** X21: searchWAAgent returns only regular files, and only its candidates:
    the agent library under the working directory, or the first entry of
    PYTHONPATH that holds a file named waagent. *)
Theorem searchWAAgent_returns_a_candidate_file env p :
  searchWAAgent env = Ok (Some p) ->
  isfile env p = true
  ∧ (p = path_join (getcwd env) "main/WaagentLib.py"
     ∨ (isfile env (path_join (getcwd env) "main/WaagentLib.py") = false
        ∧ ∃ v pre u post,
            dict_get "PYTHONPATH" (environ env) = Some v
            ∧ split pathsep v = (pre ++ u :: post)%list
            ∧ p = path_join u "waagent"
            ∧ Forall (fun u' => isfile env (path_join u' "waagent") = false) pre)).
Proof.
  unfold searchWAAgent, python_paths, getitem.
  destruct (isfile env (path_join (getcwd env) "main/WaagentLib.py")) eqn:Hcwd.
  - intros [= <-]. split; [done | by left].
  - destruct (dict_get "PYTHONPATH" (environ env)) as [v|] eqn:Hv; [|done].
    cbn [Py.bind]. intros [= Hs].
    pose proof (search_user_paths_isfile _ _ _ Hs) as Hp.
    apply search_user_paths_Some in Hs as (pre & u & post & Heq & -> & _ & Hpre).
    split; [done|]. right. split; [done|]. by exists v, pre, u, post.
Qed.

Lemma searchWAAgent_isfile env p :
  searchWAAgent env = Ok (Some p) -> isfile env p = true ∧ truthy_str p = true.
Proof.
  unfold searchWAAgent, python_paths, getitem.
  destruct (isfile env (path_join (getcwd env) "main/WaagentLib.py")) eqn:Hcwd.
  - intros [= <-]. split; [done|]. by apply path_join_truthy.
  - destruct (dict_get "PYTHONPATH" (environ env)) as [v|]; [|done].
    cbn [Py.bind]. intros [= Hs]. split.
    + by eapply search_user_paths_isfile.
    + by eapply search_user_paths_truthy.
Qed.

(** When the new search finds nothing, the old search can only find the
    agent under /usr/sbin. *)
Lemma searchWAAgentOld_after_None env :
  searchWAAgent env = Ok None ->
  searchWAAgentOld env
  = Ok (if isfile env "/usr/sbin/waagent" then Some "/usr/sbin/waagent" else None).
Proof.
  unfold searchWAAgent, searchWAAgentOld, python_paths, getitem.
  destruct (isfile env (path_join (getcwd env) "main/WaagentLib.py")); [done|].
  destruct (dict_get "PYTHONPATH" (environ env)) as [v|]; [|done].
  cbn [Py.bind]. intros [= ->]. by destruct (isfile env "/usr/sbin/waagent").
Qed.

Section ModuleImport.
Variable load_importlib : string -> load_result.
Variable load_imp : string -> load_result.

(** X22: after a successful import, the agent path is a regular file,
    no extension name is set and no event is recorded; GetPathUsed is
    1 when searchWAAgent found the path, and 0 when it found nothing,
    in which case the agent is the one under /usr/sbin. *)
Theorem import_module_path_used env m :
  import_module load_importlib load_imp env = Imported m ->
  isfile env (agentPath m) = true
  ∧ __ExtensionName__ m = None ∧ events m = []
  ∧ ((GetPathUsed m = 1 ∧ searchWAAgent env = Ok (Some (agentPath m)))
     ∨ (GetPathUsed m = 0 ∧ searchWAAgent env = Ok None
        ∧ agentPath m = "/usr/sbin/waagent")).
Proof.
  unfold import_module.
  destruct (searchWAAgent env) as [[p|]|e] eqn:Hs; [| |done].
  - apply searchWAAgent_isfile in Hs as [Hp Ht]. rewrite Ht.
    destruct (load_waagent load_importlib load_imp p); [|done].
    intros [= <-]. cbn. repeat split; [done|]. by left.
  - rewrite (searchWAAgentOld_after_None env Hs).
    destruct (isfile env "/usr/sbin/waagent") eqn:Hold; [|done].
    cbn [truthy_str].
    destruct (load_waagent load_importlib load_imp "/usr/sbin/waagent"); [|done].
    intros [= <-]. cbn. repeat split; [done|]. by right.
Qed.

(** X23: when the agent library is not under the working directory and
    PYTHONPATH is not set, the import fails with the message of the
    KeyError, also on a machine that has the old agent under
    /usr/sbin: the old search is never tried. *)
Theorem import_module_without_PYTHONPATH env :
  isfile env (path_join (getcwd env) "main/WaagentLib.py") = false ->
  dict_get "PYTHONPATH" (environ env) = None ->
  searchWAAgent env = Raise (KeyError "PYTHONPATH")
  ∧ import_module load_importlib load_imp env = ImportFails "'PYTHONPATH'".
Proof.
  intros Hcwd Henv. unfold import_module, searchWAAgent, python_paths, getitem.
  by rewrite Hcwd, Henv.
Qed.

(** X24: when PYTHONPATH is set and neither the working directory, nor an
    entry of PYTHONPATH, nor /usr/sbin holds an agent, the import
    fails with the not-found message and no loader is called. *)
Theorem import_module_agent_not_found env v :
  dict_get "PYTHONPATH" (environ env) = Some v ->
  isfile env (path_join (getcwd env) "main/WaagentLib.py") = false ->
  isfile env "/usr/sbin/waagent" = false ->
  Forall (fun u => isfile env (path_join u "waagent") = false) (split pathsep v) ->
  import_module load_importlib load_imp env
  = ImportFails "Can't load new or old waagent. Agent path not found.".
Proof.
  intros Henv Hcwd Hold Hnone%search_user_paths_None.
  assert (searchWAAgent env = Ok None) as Hs.
  { unfold searchWAAgent, python_paths, getitem.
    by rewrite Hcwd, Henv, <- Hnone. }
  unfold import_module.
  by rewrite Hs, (searchWAAgentOld_after_None env Hs), Hold.
Qed.

End ModuleImport.

Lemma searchWAAgent_returns_a_candidate_file_witness :
  isfile Examples.env_python_agent "/opt/py/waagent" = true
  ∧ ("/opt/py/waagent"
     = path_join (getcwd Examples.env_python_agent) "main/WaagentLib.py"
     ∨ (isfile Examples.env_python_agent
          (path_join (getcwd Examples.env_python_agent) "main/WaagentLib.py") = false
        ∧ ∃ v pre u post,
            dict_get "PYTHONPATH" (environ Examples.env_python_agent) = Some v
            ∧ split pathsep v = (pre ++ u :: post)%list
            ∧ "/opt/py/waagent" = path_join u "waagent"
            ∧ Forall (fun u' => isfile Examples.env_python_agent
                                  (path_join u' "waagent") = false) pre)).
Proof.
  apply (searchWAAgent_returns_a_candidate_file Examples.env_python_agent
           "/opt/py/waagent").
  reflexivity.
Defined.

Lemma import_module_path_used_witness :
  let m := Examples.module_of (Examples.env_old_agent [("PYTHONPATH", "/usr/lib")]) in
  let env := Examples.env_old_agent [("PYTHONPATH", "/usr/lib")] in
  isfile env (agentPath m) = true
  ∧ __ExtensionName__ m = None ∧ events m = []
  ∧ ((GetPathUsed m = 1 ∧ searchWAAgent env = Ok (Some (agentPath m)))
     ∨ (GetPathUsed m = 0 ∧ searchWAAgent env = Ok None
        ∧ agentPath m = "/usr/sbin/waagent")).
Proof.
  apply (import_module_path_used Examples.load_ok Examples.load_ok
           (Examples.env_old_agent [("PYTHONPATH", "/usr/lib")])).
  reflexivity.
Defined.

Lemma import_module_without_PYTHONPATH_witness :
  isfile (Examples.env_old_agent []) "/usr/sbin/waagent" = true
  ∧ searchWAAgent (Examples.env_old_agent []) = Raise (KeyError "PYTHONPATH")
  ∧ import_module Examples.load_ok Examples.load_ok (Examples.env_old_agent [])
    = ImportFails "'PYTHONPATH'".
Proof.
  split; [reflexivity|].
  apply (import_module_without_PYTHONPATH Examples.load_ok Examples.load_ok
           (Examples.env_old_agent [])); reflexivity.
Defined.

Lemma import_module_agent_not_found_witness :
  import_module Examples.load_ok Examples.load_ok Examples.env_no_agent
  = ImportFails "Can't load new or old waagent. Agent path not found.".
Proof.
  apply (import_module_agent_not_found Examples.load_ok Examples.load_ok
           Examples.env_no_agent "/usr/lib:/opt/py"); try reflexivity.
  repeat constructor.
Defined.

(** X25: InitExtensionEventLog never changes the module, so the default name
    of AddExtensionEvent stays the absent value: after any number of
    InitExtensionEventLog calls, AddExtensionEvent without a name, or
    with the name None, records nothing, and with a name it records one
    event exactly when the agent defines AddExtensionEvent. *)
Theorem AddExtensionEvent_after_Init (names : list string)
  (name : option (option string)) op isSuccess message m :
  let m' := foldr InitExtensionEventLog m names in
  m' = m
  ∧ AddExtensionEvent name op isSuccess message m'
    = match name with
      | Some (Some n) =>
          if defines_AddExtensionEvent (waagent m) then
            {| pathUsed := pathUsed m; agentPath := agentPath m;
               waagent := waagent m; __ExtensionName__ := __ExtensionName__ m;
               events := events m ++
                 [{| ev_name := n; ev_op := default (Enable m) op;
                     ev_isSuccess := default false isSuccess;
                     ev_message := default None message |}] |}
          else m
      | _ => m
      end.
Proof.
  assert (foldr InitExtensionEventLog m names = m) as ->.
  { induction names as [|n names IH]; [done|]. exact IH. }
  split; [done|]. by destruct name as [[n|]|].
Qed.

End AgentSearch.

(** ** Memoization of the generators *)
Module Memo.
Import LadLoggingConfig Examples.

(** A second call of a cached generator returns what the first call
    returned and leaves the instance as the first call left it. *)
Lemma memoized_twice cache set compute self :
  (∀ v s, cache (set v s) = Some v) ->
  (∀ v s, compute (set v s) = compute s) ->
  (∀ v v' s, set v (set v' s) = set v s) ->
  memoized cache set compute (memoized cache set compute self).2
  = memoized cache set compute self.
Proof.
  intros Hcache Hcompute Hset. unfold memoized at 2 3.
  destruct (truthy_opt_str (cache self)) eqn:Hc; cbn [negb].
  - cbn [snd]. unfold memoized. by rewrite Hc.
  - destruct (compute self) as [v|e] eqn:Hv; cbn [snd]; unfold memoized.
    + rewrite Hcache, Hcompute, Hv, Hset. cbn [truthy_opt_str default from_option id].
      by destruct (truthy_str v).
    + by rewrite Hc, Hv.
Qed.

Lemma rsyslog_memoized self :
  get_oms_rsyslog_config self
  = memoized _oms_rsyslog_config set_oms_rsyslog_config
      (fun self =>
         if _syslog_disabled self then Ok EmptyString
         else items <- iteritems (_fac_sev_map self) ;;
              ls <- comprehension rsyslog_line items ;;
              Ok (join nl ls +:+ nl)) self.
Proof.
  unfold get_oms_rsyslog_config, memoized.
  by destruct (truthy_opt_str (_oms_rsyslog_config self)), (_syslog_disabled self).
Qed.

Lemma syslog_ng_memoized src self :
  get_oms_syslog_ng_config src self
  = memoized _oms_syslog_ng_config set_oms_syslog_ng_config
      (fun self =>
         if _syslog_disabled self then Ok EmptyString
         else items <- iteritems (_fac_sev_map self) ;;
              ls <- comprehension (syslog_ng_line src) items ;;
              Ok (join nl ls +:+ nl)) self.
Proof.
  unfold get_oms_syslog_ng_config, memoized.
  by destruct (truthy_opt_str (_oms_syslog_ng_config self)), (_syslog_disabled self).
Qed.

(** X1: calling a cached generator twice: the second call returns the same
    string, or raises the same exception, as the first, and it leaves
    the instance as the first call left it. This holds for the rsyslog,
    the syslog-ng and the two event-pipeline generators, from every
    state of the instance. *)
Theorem cached_generators_are_idempotent (get_syslog_ng_src_name : string) self :
  get_oms_rsyslog_config (get_oms_rsyslog_config self).2
  = get_oms_rsyslog_config self
  ∧ get_oms_syslog_ng_config get_syslog_ng_src_name
      (get_oms_syslog_ng_config get_syslog_ng_src_name self).2
    = get_oms_syslog_ng_config get_syslog_ng_src_name self
  ∧ get_oms_mdsd_syslog_config (get_oms_mdsd_syslog_config self).2
    = get_oms_mdsd_syslog_config self
  ∧ get_oms_mdsd_filelog_config (get_oms_mdsd_filelog_config self).2
    = get_oms_mdsd_filelog_config self.
Proof.
  split; [|split; [|split]].
  - rewrite !rsyslog_memoized. by apply memoized_twice.
  - rewrite !syslog_ng_memoized. by apply memoized_twice.
  - by apply (memoized_twice _oms_mdsd_syslog_config set_oms_mdsd_syslog_config
                __generate_oms_mdsd_syslog_config).
  - by apply (memoized_twice _oms_mdsd_filelog_config set_oms_mdsd_filelog_config
                __generate_oms_mdsd_filelog_config).
Qed.

End Memo.

(** ** The line generators and the constructor *)
Module Lines.
Import LadLoggingConfig Examples.

Lemma comprehension_raise_iff {A B C} (f : A -> result B) (g : A -> result C) l :
  (∀ x e, f x = Raise e <-> g x = Raise e) ->
  ∀ e, comprehension f l = Raise e <-> comprehension g l = Raise e.
Proof.
  intros Hfg. induction l as [|x l IH]; intros e; simpl; [done|].
  pose proof (Hfg x) as Hx.
  destruct (f x) as [y|e1], (g x) as [z|e2].
  - specialize (IH e).
    destruct (comprehension f l), (comprehension g l); intuition congruence.
  - specialize (Hx e2) as [_ Hx]. by specialize (Hx eq_refl).
  - specialize (Hx e1) as [Hx _]. by specialize (Hx eq_refl).
  - specialize (Hx e). split; intros [= <-]; f_equal; intuition congruence.
Qed.

Lemma line_raise_iff src p e :
  rsyslog_line p = Raise e <-> syslog_ng_line src p = Raise e.
Proof.
  unfold rsyslog_line, syslog_ng_line.
  destruct (syslog_name_to_rsyslog_name p.1); [|done].
  by destruct (syslog_name_to_rsyslog_name p.2).
Qed.

(** X2: on a new instance the rsyslog generator and the syslog-ng generator
    fail together: each raises an exception exactly when the other
    raises the same one, so one never returns a fragment for a policy
    that the other rejects. *)
Theorem rsyslog_and_syslog_ng_fail_together
  (get_syslog_ng_src_name : string) se fl sc self e :
  __init__ se fl sc = Ok self ->
  (get_oms_rsyslog_config self).1 = Raise e
  <-> (get_oms_syslog_ng_config get_syslog_ng_src_name self).1 = Raise e.
Proof.
  intros Hinit. apply Disabled.init_fields in Hinit as (_&_&_&_&Hr&Hn&_).
  unfold get_oms_rsyslog_config, get_oms_syslog_ng_config. rewrite Hr, Hn.
  cbn [truthy_opt_str negb].
  destruct (_syslog_disabled self); [done|].
  destruct (iteritems (_fac_sev_map self)) as [items|e0]; cbn [Py.bind]; [|done].
  pose proof (comprehension_raise_iff rsyslog_line
                (syslog_ng_line get_syslog_ng_src_name) items
                (line_raise_iff get_syslog_ng_src_name) e) as Hiff.
  destruct (comprehension rsyslog_line items),
    (comprehension (syslog_ng_line get_syslog_ng_src_name) items);
    cbn [Py.bind fst].
  - split; discriminate.
  - split; [discriminate|]. intros [= ->]. by pose proof (proj2 Hiff eq_refl).
  - split; [|discriminate]. intros [= ->]. by pose proof (proj1 Hiff eq_refl).
  - split; intros [= ->].
    + pose proof (proj1 Hiff eq_refl). congruence.
    + pose proof (proj2 Hiff eq_refl). congruence.
Qed.

Lemma rsyslog_and_syslog_ng_fail_together_witness :
  let self := instance_of (syslog_policy None (Some [("LOG_USER", "NONE")])) None in
  (get_oms_rsyslog_config self).1
  = Raise (LadLoggingConfigException "Invalid syslog name given: NONE")
  <-> (get_oms_syslog_ng_config "s_src" self).1
      = Raise (LadLoggingConfigException "Invalid syslog name given: NONE").
Proof.
  apply (rsyslog_and_syslog_ng_fail_together "s_src"
           (syslog_policy None (Some [("LOG_USER", "NONE")])) None sc_example).
  reflexivity.
Defined.

Lemma comprehension_reaches {A B} (f : A -> result B) pre x post e :
  Forall (fun y => is_ok (f y) = true) pre ->
  f x = Raise e ->
  comprehension f (pre ++ x :: post) = Raise e.
Proof.
  intros Hpre Hx. induction Hpre as [|y ys Hy _ IH]; simpl.
  - by rewrite Hx.
  - destruct (f y); [|done]. by rewrite IH.
Qed.

Lemma line_is_ok src p : is_ok (syslog_ng_line src p) = is_ok (rsyslog_line p).
Proof.
  unfold rsyslog_line, syslog_ng_line.
  destruct (syslog_name_to_rsyslog_name p.1); [|done].
  by destruct (syslog_name_to_rsyslog_name p.2).
Qed.

Lemma line_raises src fac sev :
  is_ok (rsyslog_line (fac, sev)) = false ->
  let bad := if is_ok (syslog_name_to_rsyslog_name fac) then sev else fac in
  rsyslog_line (fac, sev)
  = Raise (LadLoggingConfigException ("Invalid syslog name given: " +:+ bad))
  ∧ syslog_ng_line src (fac, sev)
    = Raise (LadLoggingConfigException ("Invalid syslog name given: " +:+ bad)).
Proof.
  unfold rsyslog_line, syslog_ng_line, syslog_name_to_rsyslog_name. cbn [fst snd].
  destruct (dict_get fac syslog_name_to_rsyslog_name_map); cbn [Py.bind is_ok];
    [|done].
  by destruct (dict_get sev syslog_name_to_rsyslog_name_map).
Qed.

Lemma init_enabled_fields se fl sc self items :
  __init__ (Some se) fl sc = Ok self ->
  se_syslogEventConfiguration se = Some items -> items ≠ [] ->
  _syslog_disabled self = false ∧ _fac_sev_map self = Some items
  ∧ _oms_rsyslog_config self = None ∧ _oms_syslog_ng_config self = None.
Proof.
  intros Hinit Hcfg Hne.
  pose proof (Sinks.init_enabled _ _ _ _ _ Hinit Hcfg Hne) as Hd.
  pose proof (Disabled.init_fac_sev_map _ _ _ _ Hinit) as Hm.
  apply Disabled.init_fields in Hinit as (_&_&_&_&Hr&Hn&_).
  repeat split; try done. rewrite Hm. simpl. rewrite Hcfg.
  by destruct (se_sinks se).
Qed.

(** X3: a facility or severity name outside the table makes both fragment
    generators raise the invalid-name error for the first such name, in
    the order of the pairs and with the facility before the severity;
    nothing is cached. The severity NONE of the constructor's docstring
    is such a name. *)
Theorem invalid_syslog_name_is_rejected
  (get_syslog_ng_src_name : string) se fl sc self pre fac sev post :
  __init__ (Some se) fl sc = Ok self ->
  se_syslogEventConfiguration se = Some (pre ++ (fac, sev) :: post)%list ->
  Forall (fun p => is_ok (rsyslog_line p) = true) pre ->
  is_ok (rsyslog_line (fac, sev)) = false ->
  let bad := if is_ok (syslog_name_to_rsyslog_name fac) then sev else fac in
  get_oms_rsyslog_config self
  = (Raise (LadLoggingConfigException ("Invalid syslog name given: " +:+ bad)), self)
  ∧ get_oms_syslog_ng_config get_syslog_ng_src_name self
    = (Raise (LadLoggingConfigException ("Invalid syslog name given: " +:+ bad)), self).
Proof.
  intros Hinit Hcfg Hpre Hbad bad.
  destruct (init_enabled_fields _ _ _ _ _ Hinit Hcfg) as (Hd & Hm & Hr & Hn).
  { by destruct pre. }
  destruct (line_raises get_syslog_ng_src_name fac sev Hbad) as [H1 H2].
  unfold get_oms_rsyslog_config, get_oms_syslog_ng_config.
  rewrite Hr, Hn, Hd, Hm. cbn [truthy_opt_str negb iteritems Py.bind].
  assert (Forall (fun p => is_ok (syslog_ng_line get_syslog_ng_src_name p) = true) pre)
    as Hpre'.
  { eapply Forall_impl; [exact Hpre|]. intros p Hp. by rewrite line_is_ok. }
  rewrite (comprehension_reaches rsyslog_line pre (fac, sev) post _ Hpre H1).
  by rewrite (comprehension_reaches (syslog_ng_line get_syslog_ng_src_name)
                pre (fac, sev) post _ Hpre' H2).
Qed.

Lemma invalid_syslog_name_is_rejected_witness :
  let self := instance_of (syslog_policy None
                             (Some [("LOG_USER", "LOG_ERR"); ("LOG_CRON", "NONE")]))
                None in
  get_oms_rsyslog_config self
  = (Raise (LadLoggingConfigException "Invalid syslog name given: NONE"), self)
  ∧ get_oms_syslog_ng_config "s_src" self
    = (Raise (LadLoggingConfigException "Invalid syslog name given: NONE"), self).
Proof.
  apply (invalid_syslog_name_is_rejected "s_src"
           {| se_sinks := None;
              se_syslogEventConfiguration :=
                Some [("LOG_USER", "LOG_ERR"); ("LOG_CRON", "NONE")] |}
           None sc_example _ [("LOG_USER", "LOG_ERR")] "LOG_CRON" "NONE" []).
  - reflexivity.
  - reflexivity.
  - by repeat constructor.
  - reflexivity.
Defined.

Lemma join_nl_lines (ls : list string) :
  ls ≠ [] -> join nl ls +:+ nl = str_concat ((fun l => l +:+ nl) <$> ls).
Proof.
  induction ls as [|l ls IH]; [done|]. intros _.
  destruct ls as [|l' ls].
  - cbn. by rewrite FileLogs.string_app_nil_r.
  - change (join nl (l :: l' :: ls)) with (l +:+ nl +:+ join nl (l' :: ls)).
    change (str_concat ((fun l => l +:+ nl) <$> l :: l' :: ls))
      with ((l +:+ nl) +:+ str_concat ((fun l => l +:+ nl) <$> l' :: ls)).
    rewrite <- IH by done. by rewrite !FileLogs.string_app_assoc.
Qed.

(** X4: for a policy whose names are all in the table, the rsyslog fragment
    and the syslog-ng fragment have one line for each pair of the
    event configuration, in its order, built from the short names, and
    every line ends with a line feed. *)
Theorem syslog_fragments_have_one_line_per_pair
  (get_syslog_ng_src_name : string) se fl sc self items
  (shorts : list (string * string)) :
  __init__ (Some se) fl sc = Ok self ->
  se_syslogEventConfiguration se = Some items -> items ≠ [] ->
  Forall2 (fun p q => syslog_name_to_rsyslog_name p.1 = Ok q.1
                      ∧ syslog_name_to_rsyslog_name p.2 = Ok q.2) items shorts ->
  (get_oms_rsyslog_config self).1
  = Ok (str_concat
          ((fun q => (q.1 +:+ "." +:+ q.2 +:+ "  @127.0.0.1:%SYSLOG_PORT%") +:+ nl)
             <$> shorts))
  ∧ (get_oms_syslog_ng_config get_syslog_ng_src_name self).1
    = Ok (str_concat
            ((fun q => ("log { source(" +:+ get_syslog_ng_src_name +:+
                        "); filter(f_LAD_oms_f_" +:+ q.1 +:+
                        "); filter(f_LAD_oms_ml_" +:+ q.2 +:+
                        "); destination(d_LAD_oms); };") +:+ nl)
               <$> shorts)).
Proof.
  intros Hinit Hcfg Hne Hshorts.
  destruct (init_enabled_fields _ _ _ _ _ Hinit Hcfg Hne) as (Hd & Hm & Hr & Hn).
  unfold get_oms_rsyslog_config, get_oms_syslog_ng_config.
  rewrite Hr, Hn, Hd, Hm. cbn [truthy_opt_str negb iteritems Py.bind].
  assert (shorts ≠ []) as Hne'.
  { intros ->. by apply Forall2_nil_inv_r in Hshorts. }
  set (f1 := fun q : string * string =>
               q.1 +:+ "." +:+ q.2 +:+ "  @127.0.0.1:%SYSLOG_PORT%").
  set (f2 := fun q : string * string =>
               "log { source(" +:+ get_syslog_ng_src_name +:+
               "); filter(f_LAD_oms_f_" +:+ q.1 +:+
               "); filter(f_LAD_oms_ml_" +:+ q.2 +:+
               "); destination(d_LAD_oms); };").
  assert (comprehension rsyslog_line items = Ok (f1 <$> shorts)) as ->.
  { apply FileLogs.comprehension_Forall2, Forall2_fmap_r.
    eapply Forall2_impl; [exact Hshorts|]. intros p q [H1 H2].
    unfold rsyslog_line. by rewrite H1, H2. }
  assert (comprehension (syslog_ng_line get_syslog_ng_src_name) items
          = Ok (f2 <$> shorts)) as ->.
  { apply FileLogs.comprehension_Forall2, Forall2_fmap_r.
    eapply Forall2_impl; [exact Hshorts|]. intros p q [H1 H2].
    unfold syslog_ng_line. by rewrite H1, H2. }
  cbn [Py.bind fst].
  rewrite !join_nl_lines by (by destruct shorts).
  by rewrite <- !list_fmap_compose.
Qed.

Lemma syslog_fragments_have_one_line_per_pair_witness :
  let self := instance_of (syslog_policy None
                             (Some [("LOG_USER", "LOG_ERR"); ("LOG_LOCAL0", "LOG_CRIT")]))
                None in
  let shorts := [("user", "err"); ("local0", "crit")] in
  (get_oms_rsyslog_config self).1
  = Ok (str_concat
          ((fun q => (q.1 +:+ "." +:+ q.2 +:+ "  @127.0.0.1:%SYSLOG_PORT%") +:+ nl)
             <$> shorts))
  ∧ (get_oms_syslog_ng_config "s_src" self).1
    = Ok (str_concat
            ((fun q => ("log { source(" +:+ "s_src" +:+
                        "); filter(f_LAD_oms_f_" +:+ q.1 +:+
                        "); filter(f_LAD_oms_ml_" +:+ q.2 +:+
                        "); destination(d_LAD_oms); };") +:+ nl)
               <$> shorts)).
Proof.
  apply (syslog_fragments_have_one_line_per_pair "s_src"
           {| se_sinks := None;
              se_syslogEventConfiguration :=
                Some [("LOG_USER", "LOG_ERR"); ("LOG_LOCAL0", "LOG_CRIT")] |}
           None sc_example _ [("LOG_USER", "LOG_ERR"); ("LOG_LOCAL0", "LOG_CRIT")]
           [("user", "err"); ("local0", "crit")]).
  - reflexivity.
  - reflexivity.
  - discriminate.
  - by repeat constructor.
Defined.

End Lines.

(** ** The sink resolver and the event-pipeline syslog document *)
Module Routes.
Import LadLoggingConfig Examples.

(** X6: the resolver returns a pair exactly for the sinks that the registry
    defines as JsonBlob, or as EventHub with a sasURL: a JsonBlob sink
    gives a route with storeType JsonBlob and no annotation, an EventHub
    sink gives a route with storeType local and the annotation that
    carries its sasURL. *)
Theorem resolver_succeeds_iff self sink_name p :
  __generate_routeevent_and_eh_url_for_extra_sink self sink_name = Ok p
  <-> ∃ sink,
        get_sink_by_name (_sinksConfig self) sink_name = Some sink
        ∧ ((dict_get "type" sink = Some "JsonBlob"
            ∧ p = (_mdsd_per_routeevent_config_template sink_name
                     ("storeType=" +:+ dq +:+ "JsonBlob" +:+ dq),
                   EmptyString))
           ∨ (dict_get "type" sink = Some "EventHub"
              ∧ ∃ sasURL,
                  dict_get "sasURL" sink = Some sasURL
                  ∧ p = (_mdsd_per_routeevent_config_template sink_name
                           ("storeType=" +:+ dq +:+ "local" +:+ dq),
                         _mdsd_per_eh_url_template sink_name sasURL))).
Proof.
  unfold __generate_routeevent_and_eh_url_for_extra_sink, getitem, dict_contains.
  destruct (get_sink_by_name (_sinksConfig self) sink_name) as [sink|];
    [|split; [done | by intros (? & ? & _)]].
  split.
  - intros Hp. exists sink. split; [done|]. revert Hp.
    destruct sink as [|kv sink]; [done|]. cbn [truthy_list negb].
    destruct (dict_get "type" (kv :: sink)) as [ty|]; [|done]. cbn [Py.bind].
    destruct ty as [|c ty]; [done|]. cbn [truthy_str negb].
    destruct (String.eqb_spec (String c ty) "JsonBlob") as [->|_].
    { intros [= <-]. by left. }
    destruct (String.eqb_spec (String c ty) "EventHub") as [->|_]; [|done].
    destruct (dict_get "sasURL" (kv :: sink)) as [url|]; [|done].
    cbn [negb Py.bind]. intros [= <-]. right. split; [done|]. by exists url.
  - intros (sink' & [= <-] & [[Hty ->]|(Hty & url & Hurl & ->)]).
    + destruct sink as [|kv sink]; [done|]. by rewrite Hty.
    + destruct sink as [|kv sink]; [done|]. by rewrite Hty, Hurl.
Qed.

Lemma syslog_loop_concat self names (ps : list (string * string)) :
  Forall2 (fun n p =>
             n ≠ "LinuxSyslog"
             ∧ __generate_routeevent_and_eh_url_for_extra_sink self n = Ok p)
    names ps ->
  ∀ a b, for_each names (syslog_sink_body self) (a, b)
         = Ok (a +:+ str_concat ps.*1, b +:+ str_concat ps.*2).
Proof.
  induction 1 as [|n p names ps [Hne Hp] _ IH]; intros a b.
  - cbn. by rewrite !FileLogs.string_app_nil_r.
  - cbn [for_each]. unfold syslog_sink_body at 1.
    destruct (String.eqb_spec n "LinuxSyslog"); [done|].
    rewrite Hp. cbn [Py.bind fst snd]. rewrite IH.
    by rewrite !FileLogs.string_app_assoc.
Qed.

(** X7: when syslog collection is enabled and every sink of the policy
    resolves, the event-pipeline syslog generator returns, and caches,
    the document with the one source mdsd.syslog, the default route to
    LinuxSyslog followed by one route for each sink in the order of the
    sinks list, and the annotations of the sinks in the same order. *)
Theorem mdsd_syslog_document self se (ps : list (string * string)) :
  _syslog_disabled self = false ->
  _oms_mdsd_syslog_config self = None ->
  _syslogEvents self = Some se ->
  Forall2 (fun n p =>
             n ≠ "LinuxSyslog"
             ∧ __generate_routeevent_and_eh_url_for_extra_sink self n = Ok p)
    (match se_sinks se with Some sinks => split "," sinks | None => [] end) ps ->
  let doc :=
    _mdsd_sources_events_config_template
      (_mdsd_per_source_config_template "mdsd.syslog")
      (_mdsd_per_event_source_config_template "mdsd.syslog"
         (_mdsd_per_routeevent_config_template "LinuxSyslog" EmptyString
          +:+ str_concat ps.*1))
      (str_concat ps.*2) in
  get_oms_mdsd_syslog_config self = (Ok doc, set_oms_mdsd_syslog_config doc self).
Proof.
  intros Hd Hc Hse Hps doc.
  unfold get_oms_mdsd_syslog_config, __generate_oms_mdsd_syslog_config.
  rewrite Hc, Hd, Hse. cbn [truthy_opt_str negb].
  destruct (se_sinks se) as [sinks|].
  - by rewrite (syslog_loop_concat self _ ps Hps).
  - apply Forall2_nil_inv_l in Hps as ->. reflexivity.
Qed.

Lemma mdsd_syslog_document_witness :
  let self := instance_of (syslog_policy (Some "MySink,EHok")
                             (Some [("LOG_USER", "LOG_ERR")])) None in
  let ps := [(_mdsd_per_routeevent_config_template "MySink"
                ("storeType=" +:+ dq +:+ "JsonBlob" +:+ dq), EmptyString);
             (_mdsd_per_routeevent_config_template "EHok"
                ("storeType=" +:+ dq +:+ "local" +:+ dq),
              _mdsd_per_eh_url_template "EHok" "https://eh/x")] in
  let doc :=
    _mdsd_sources_events_config_template
      (_mdsd_per_source_config_template "mdsd.syslog")
      (_mdsd_per_event_source_config_template "mdsd.syslog"
         (_mdsd_per_routeevent_config_template "LinuxSyslog" EmptyString
          +:+ str_concat ps.*1))
      (str_concat ps.*2) in
  get_oms_mdsd_syslog_config self = (Ok doc, set_oms_mdsd_syslog_config doc self).
Proof.
  intros self ps.
  apply (mdsd_syslog_document self
           {| se_sinks := Some "MySink,EHok";
              se_syslogEventConfiguration := Some [("LOG_USER", "LOG_ERR")] |} ps).
  - reflexivity.
  - reflexivity.
  - reflexivity.
  - repeat constructor; discriminate.
Defined.

(** X8: an empty sinks string is no empty sinks list for the syslog policy:
    it is split into the one sink name that is the empty string, and
    the generator raises the unknown-sink error unless the registry
    defines a sink of that name. The file loop instead skips an empty
    sinks string, and succeeds when the file has a table. *)
Theorem empty_sinks_string self se :
  _syslog_disabled self = false ->
  _oms_mdsd_syslog_config self = None ->
  _syslogEvents self = Some se ->
  se_sinks se = Some EmptyString ->
  get_sink_by_name (_sinksConfig self) EmptyString = None ->
  get_oms_mdsd_syslog_config self
  = (Raise (LadLoggingConfigException (sink_not_defined_msg EmptyString)), self)
  ∧ ∀ tm sm k table acc,
      dict_get k tm = Some table -> table ≠ EmptyString ->
      dict_get k sm = Some EmptyString ->
      is_ok (filelog_file_body self tm sm acc k) = true.
Proof.
  intros Hd Hc Hse Hs Hreg. split.
  - eapply Sinks.mdsd_syslog_config_loop_raises; [done..|].
    cbn. unfold syslog_sink_body, __generate_routeevent_and_eh_url_for_extra_sink.
    by rewrite Hreg.
  - intros tm sm k table [[a b] c] Ht Hne Hsm.
    unfold filelog_file_body, getitem. rewrite Ht, Hsm.
    by destruct table.
Qed.

Lemma empty_sinks_string_witness :
  let self := instance_of (syslog_policy (Some EmptyString)
                             (Some [("LOG_USER", "LOG_ERR")])) None in
  get_oms_mdsd_syslog_config self
  = (Raise (LadLoggingConfigException (sink_not_defined_msg EmptyString)), self)
  ∧ ∀ tm sm k table acc,
      dict_get k tm = Some table -> table ≠ EmptyString ->
      dict_get k sm = Some EmptyString ->
      is_ok (filelog_file_body self tm sm acc k) = true.
Proof.
  intros self.
  apply (empty_sinks_string self
           {| se_sinks := Some EmptyString;
              se_syslogEventConfiguration := Some [("LOG_USER", "LOG_ERR")] |});
    reflexivity.
Defined.

Lemma filelog_loop_concat self names (ps : list (string * string)) :
  Forall2 (fun n p => __generate_routeevent_and_eh_url_for_extra_sink self n = Ok p)
    names ps ->
  ∀ a b, for_each names (filelog_sink_body self) (a, b)
         = Ok (a +:+ str_concat ps.*1, b +:+ str_concat ps.*2).
Proof.
  induction 1 as [|n p names ps Hp _ IH]; intros a b.
  - cbn. by rewrite !FileLogs.string_app_nil_r.
  - cbn [for_each]. rewrite EventHub.filelog_sink_body_unfold, Hp.
    cbn [fst snd]. rewrite IH. by rewrite !FileLogs.string_app_assoc.
Qed.

(** X9: one turn of the file loop, for a file that has a table or sinks
    that all resolve: it adds one Source line with the source name of
    the file, one event-source block with the route to the table, if
    there is one, followed by the routes of the sinks in their order,
    and the annotations of the sinks. A sink named LinuxSyslog is
    resolved like any other. *)
Theorem filelog_file_block self tm sm a b c k table sinks
  (ps : list (string * string)) :
  dict_get k tm = Some table -> dict_get k sm = Some sinks ->
  truthy_str table || truthy_str sinks = true ->
  Forall2 (fun n p => __generate_routeevent_and_eh_url_for_extra_sink self n = Ok p)
    (if truthy_str sinks then split "," sinks else []) ps ->
  filelog_file_body self tm sm (a, b, c) k
  = Ok (a +:+ _mdsd_per_source_config_template (source_name_of k),
        b +:+ _mdsd_per_event_source_config_template (source_name_of k)
                ((if truthy_str table
                  then _mdsd_per_routeevent_config_template table EmptyString
                  else EmptyString) +:+ str_concat ps.*1),
        c +:+ str_concat ps.*2).
Proof.
  intros Ht Hs Hsome Hps. unfold filelog_file_body, getitem.
  rewrite Ht, Hs. cbn [Py.bind].
  rewrite <- negb_orb, Hsome. cbn [negb].
  destruct (truthy_str sinks).
  - rewrite (filelog_loop_concat self _ ps Hps). cbn [Py.bind fst snd].
    by destruct (truthy_str table).
  - apply Forall2_nil_inv_l in Hps as ->. cbn [Py.bind fst snd fmap list_fmap str_concat foldr].
    rewrite !FileLogs.string_app_nil_r. by destruct (truthy_str table).
Qed.

Lemma filelog_file_block_witness :
  let self := instance_of None
                (Some [file_entry "/var/log/a" (Some "T") (Some "LinuxSyslog,EHok")]) in
  let ps := [(_mdsd_per_routeevent_config_template "LinuxSyslog"
                ("storeType=" +:+ dq +:+ "JsonBlob" +:+ dq), EmptyString);
             (_mdsd_per_routeevent_config_template "EHok"
                ("storeType=" +:+ dq +:+ "local" +:+ dq),
              _mdsd_per_eh_url_template "EHok" "https://eh/x")] in
  filelog_file_body self [("/var/log/a", "T")] [("/var/log/a", "LinuxSyslog,EHok")]
    (EmptyString, EmptyString, EmptyString) "/var/log/a"
  = Ok (EmptyString +:+ _mdsd_per_source_config_template (source_name_of "/var/log/a"),
        EmptyString +:+ _mdsd_per_event_source_config_template
                          (source_name_of "/var/log/a")
                ((if truthy_str "T"
                  then _mdsd_per_routeevent_config_template "T" EmptyString
                  else EmptyString) +:+ str_concat ps.*1),
        EmptyString +:+ str_concat ps.*2).
Proof.
  intros self ps.
  apply (filelog_file_block self [("/var/log/a", "T")]
           [("/var/log/a", "LinuxSyslog,EHok")] EmptyString EmptyString EmptyString
           "/var/log/a" "T" "LinuxSyslog,EHok" ps); try reflexivity.
  by repeat constructor.
Defined.

End Routes.

(** ** The constructor and the file-log generators *)
Module FileLogPolicy.
Import LadLoggingConfig Examples.

Lemma comprehension_raises_inv {A B} (f : A -> result B) l e :
  comprehension f l = Raise e -> ∃ x, x ∈ l ∧ f x = Raise e.
Proof.
  induction l as [|x l IH]; simpl; [done|].
  destruct (f x) as [y|e'] eqn:Hx.
  - destruct (comprehension f l); [done|]. intros [= ->].
    destruct IH as (x' & ? & ?); [done|]. exists x'. split; [by right | done].
  - intros [= ->]. exists x. split; [left | done].
Qed.

Lemma comprehension_all_ok {A B} (f : A -> result B) l :
  Forall (fun x => is_ok (f x) = true) l -> is_ok (comprehension f l) = true.
Proof.
  induction 1 as [|x l Hx _ IH]; simpl; [done|].
  destruct (f x); [|done]. by destruct (comprehension f l).
Qed.

Lemma file_pairs_raise entry e :
  file_table_pair entry = Raise e ∨ file_sinks_pair entry = Raise e ->
  e = KeyError "file" ∧ fl_file entry = None.
Proof.
  unfold file_table_pair, file_sinks_pair, entry_file.
  destruct (fl_file entry); cbn [Py.bind]; intros [[= <-]|[= <-]]; done.
Qed.

Lemma file_pairs_ok entry :
  is_Some (fl_file entry) ->
  is_ok (file_table_pair entry) = true ∧ is_ok (file_sinks_pair entry) = true.
Proof.
  intros [f Hf]. unfold file_table_pair, file_sinks_pair, entry_file.
  by rewrite Hf.
Qed.

(** The outcome of the two comprehensions of the constructor. *)
Lemma file_maps_outcome (l : list FileLogEntry) :
  (Forall (fun entry => is_Some (fl_file entry)) l
   ∧ ∃ tps sps, comprehension file_table_pair l = Ok tps
                ∧ comprehension file_sinks_pair l = Ok sps)
  ∨ (¬ Forall (fun entry => is_Some (fl_file entry)) l
     ∧ comprehension file_table_pair l = Raise (KeyError "file")).
Proof.
  destruct (comprehension file_table_pair l) as [tps|e] eqn:Ht.
  - left.
    assert (Forall (fun entry => is_Some (fl_file entry)) l) as Hall.
    { apply FileLogs.comprehension_Forall2 in Ht.
      apply Forall_forall. intros entry Hin.
      apply list_elem_of_lookup in Hin as [i Hi].
      destruct (Forall2_lookup_l _ _ _ _ _ Ht Hi) as (p & _ & Hp).
      apply FileLogs.file_table_pair_Ok in Hp as [Hp _]. eauto. }
    split; [done|]. exists tps.
    destruct (comprehension file_sinks_pair l) as [sps|e] eqn:Hs; [by exists sps|].
    exfalso.
    assert (is_ok (comprehension file_sinks_pair l) = true) as Hok.
    { apply comprehension_all_ok. eapply Forall_impl; [exact Hall|].
      intros entry Hentry. by apply file_pairs_ok. }
    by rewrite Hs in Hok.
  - right. apply comprehension_raises_inv in Ht as (entry & Hin & Hentry).
    destruct (file_pairs_raise entry e) as [-> Hnone]; [by left|].
    split; [|done]. intros Hall. rewrite Forall_forall in Hall.
    destruct (Hall entry Hin) as [f Hf]. congruence.
Qed.

(** X5: the constructor succeeds exactly when a syslog policy that has a key
    also has its event configuration, and every entry of a non-empty
    file-log policy names a file; otherwise it raises the configuration
    error made from the KeyError, of the event configuration first. *)
Theorem init_succeeds_iff se fl sc :
  (is_ok (__init__ se fl sc) = true
   <-> (truthy_syslogEvents se = true
        -> is_Some (se ≫= se_syslogEventConfiguration))
       ∧ (truthy_fileLogs fl = true
          -> Forall (fun entry => is_Some (fl_file entry)) (default [] fl)))
  ∧ (∀ e, __init__ se fl sc = Raise e ->
          e = LadLoggingConfigException (KeyError_msg "syslogEventConfiguration")
          ∨ (e = LadLoggingConfigException (KeyError_msg "file")
             ∧ (truthy_syslogEvents se = true
                -> is_Some (se ≫= se_syslogEventConfiguration)))).
Proof.
  unfold __init__, init_body.
  destruct (truthy_syslogEvents se) eqn:Hts.
  - destruct se as [r|]; [|done]. cbn [mbind option_bind].
    destruct (se_syslogEventConfiguration r) as [m|]; cbn [Py.bind].
    + destruct (truthy_fileLogs fl) eqn:Htf.
      * destruct (file_maps_outcome (default [] fl))
        as [(Hall & tps & sps & -> & ->)|(Hnot & ->)]; cbn [Py.bind is_ok].
        -- split; [|done]. split; [|done]. intros _. split; [eauto | done].
        -- split.
           ++ split; [done|]. intros [_ Hall]. by destruct Hnot; apply Hall.
           ++ intros e [= <-]. right. split; [done | eauto].
      * cbn [is_ok]. split; [|done]. split; [|done]. intros _. split; [eauto | done].
    + cbn [is_ok]. split.
      * split; [done|]. intros [Hcfg _]. by destruct (Hcfg eq_refl).
      * intros e [= <-]. by left.
  - cbn [Py.bind]. destruct (truthy_fileLogs fl) eqn:Htf.
    + destruct (file_maps_outcome (default [] fl))
        as [(Hall & tps & sps & -> & ->)|(Hnot & ->)]; cbn [Py.bind is_ok].
      * split; [|done]. split; [|done]. intros _. split; [done | done].
      * split.
        -- split; [done|]. intros [_ Hall]. by destruct Hnot; apply Hall.
        -- intros e [= <-]. right. split; [done | done].
    + cbn [is_ok]. split; [|done]. split; [|done]. intros _. split; done.
Qed.

(** X10: when the file-log policy is absent or empty, the event-pipeline
    file-log generator and the fluentd file-log generator both return
    the empty string. *)
Theorem no_file_logs_no_output se fl sc self :
  __init__ se fl sc = Ok self ->
  fileLogs_absent_or_empty fl ->
  (get_oms_mdsd_filelog_config self).1 = Ok EmptyString
  ∧ get_oms_fluentd_filelog_src_config self = Ok EmptyString.
Proof.
  intros Hinit Hfl.
  apply Disabled.init_fields in Hinit as (_&Hf&_&_&_&_&_&Hc&_).
  unfold get_oms_mdsd_filelog_config, __generate_oms_mdsd_filelog_config,
    get_oms_fluentd_filelog_src_config.
  rewrite Hc, Hf. by destruct Hfl as [-> | ->].
Qed.

Lemma no_file_logs_no_output_witness :
  let self := instance_of (syslog_policy None (Some [("LOG_USER", "LOG_ERR")]))
                (Some []) in
  (get_oms_mdsd_filelog_config self).1 = Ok EmptyString
  ∧ get_oms_fluentd_filelog_src_config self = Ok EmptyString.
Proof.
  apply (no_file_logs_no_output
           (syslog_policy None (Some [("LOG_USER", "LOG_ERR")])) (Some []) sc_example).
  - reflexivity.
  - right. reflexivity.
Defined.

Lemma filelog_file_body_incomplete self tm sm acc k :
  dict_get k tm = Some EmptyString -> dict_get k sm = Some EmptyString ->
  filelog_file_body self tm sm acc k
  = Raise (LadLoggingConfigException (neither_table_nor_sinks_msg k)).
Proof.
  intros Ht Hs. destruct acc as [[a b] c].
  unfold filelog_file_body, getitem. by rewrite Ht, Hs.
Qed.

(** X11: a file for which the maps of the instance hold neither a table nor
    sinks makes the event-pipeline file-log generator raise, so no
    document is returned and nothing is cached; the exception is the
    incomplete-entry error for that file when the files sorted before
    it are processed without error. The fluentd file-log generator
    makes no such check and still lists the file. *)
Theorem file_without_table_and_sinks self tm sm kpre k kpost :
  truthy_fileLogs (_fileLogs self) = true ->
  _oms_mdsd_filelog_config self = None ->
  _file_table_map self = Some tm ->
  _file_sinks_map self = Some sm ->
  sorted (dict_keys tm) = (kpre ++ k :: kpost)%list ->
  dict_get k tm = Some EmptyString -> dict_get k sm = Some EmptyString ->
  (∃ e, get_oms_mdsd_filelog_config self = (Raise e, self))
  ∧ (Forall (fun k' =>
               is_ok (filelog_file_body self tm sm
                        (EmptyString, EmptyString, EmptyString) k') = true) kpre ->
     get_oms_mdsd_filelog_config self
     = (Raise (LadLoggingConfigException (neither_table_nor_sinks_msg k)), self))
  ∧ get_oms_fluentd_filelog_src_config self
    = Ok (fluentd_tail_src_config_template (join "," (dict_keys tm)))
  ∧ k ∈ dict_keys tm.
Proof.
  intros Hfl Hc Htm Hsm Hkeys Ht Hs.
  assert (k ∈ sorted (dict_keys tm)) as Hk.
  { rewrite Hkeys. apply elem_of_app. right. left. }
  split; [|split; [|split]].
  - destruct (Sinks.is_ok_false
                (for_each (sorted (dict_keys tm)) (filelog_file_body self tm sm)
                   (EmptyString, EmptyString, EmptyString))) as [e He].
    + apply Sinks.for_each_raises_at with (x := k); [done|].
      intros acc. by rewrite filelog_file_body_incomplete.
    + exists e. by eapply EventHub.mdsd_filelog_config_loop_raises.
  - intros Hkpre. eapply EventHub.mdsd_filelog_config_loop_raises; [done..|].
    rewrite Hkeys. apply Sinks.for_each_reaches.
    + eapply Forall_impl; [exact Hkpre|]. intros k' Hk' s.
      by rewrite (EventHub.filelog_file_body_is_ok _ _ _ s
                    (EmptyString, EmptyString, EmptyString)).
    + intros acc. by apply filelog_file_body_incomplete.
  - by apply FileLogs.fluentd_filelog_src_config_keys.
  - revert Hk. unfold sorted. by rewrite merge_sort_Permutation.
Qed.

Lemma file_without_table_and_sinks_witness :
  let self := instance_of None
                (Some [file_entry "/var/log/b" None None;
                       file_entry "/var/log/a" (Some "T") None]) in
  let tm := [("/var/log/b", EmptyString); ("/var/log/a", "T")] in
  (∃ e, get_oms_mdsd_filelog_config self = (Raise e, self))
  ∧ (Forall (fun k' =>
               is_ok (filelog_file_body self tm
                        [("/var/log/b", EmptyString); ("/var/log/a", EmptyString)]
                        (EmptyString, EmptyString, EmptyString) k') = true)
       ["/var/log/a"] ->
     get_oms_mdsd_filelog_config self
     = (Raise (LadLoggingConfigException (neither_table_nor_sinks_msg "/var/log/b")),
        self))
  ∧ get_oms_fluentd_filelog_src_config self
    = Ok (fluentd_tail_src_config_template (join "," (dict_keys tm)))
  ∧ "/var/log/b" ∈ dict_keys tm.
Proof.
  intros self tm.
  apply (file_without_table_and_sinks self tm
           [("/var/log/b", EmptyString); ("/var/log/a", EmptyString)]
           ["/var/log/a"] "/var/log/b" []); reflexivity.
Defined.

(** X12: for a non-empty file-log policy, the fluentd file-log generator
    watches exactly the files that the entries of the policy name, each
    once, and the loop of the event-pipeline file-log generator visits
    the same files. *)
Theorem watched_files_are_the_policy_files se fl sc self :
  __init__ se (Some fl) sc = Ok self -> fl ≠ [] ->
  ∃ ks, get_oms_fluentd_filelog_src_config self
        = Ok (fluentd_tail_src_config_template (join "," ks))
        ∧ NoDup ks
        ∧ (∀ f, f ∈ ks <-> ∃ entry, entry ∈ fl ∧ fl_file entry = Some f)
        ∧ (∃ tm sm,
             __generate_oms_mdsd_filelog_config self
             = (acc <- for_each (sorted ks) (filelog_file_body self tm sm)
                         (EmptyString, EmptyString, EmptyString) ;;
                Ok (_mdsd_sources_events_config_template acc.1.1 acc.1.2 acc.2)))
        ∧ sorted ks ≡ₚ ks.
Proof.
  intros Hinit Hne.
  destruct (FileLogs.init_file_maps _ _ _ _ Hinit Hne)
    as (tps & sps & Ht & _ & Htm & Hsm).
  apply Disabled.init_fields in Hinit as (_&Hf&_).
  assert (truthy_fileLogs (_fileLogs self) = true) as Htr.
  { rewrite Hf. by destruct fl. }
  exists (dict_keys (dict_of_pairs tps)). split; [|split; [|split; [|split]]].
  - by apply FileLogs.fluentd_filelog_src_config_keys.
  - apply Dicts.dict_of_pairs_NoDup.
  - intros f. rewrite Dicts.dict_of_pairs_keys.
    apply (FileLogs.pairs_keys fl tps f file_table_pair); [|done].
    intros entry p Hp. by apply FileLogs.file_table_pair_Ok in Hp as [? _].
  - exists (dict_of_pairs tps), (dict_of_pairs sps).
    by apply EventHub.generate_oms_mdsd_filelog_config_loop.
  - unfold sorted. apply merge_sort_Permutation.
Qed.

Lemma watched_files_are_the_policy_files_witness :
  let fl := [file_entry "/var/log/b" (Some "B") None;
             file_entry "/var/log/a" None (Some "MySink");
             file_entry "/var/log/b" (Some "B2") None] in
  let self := instance_of None (Some fl) in
  ∃ ks, get_oms_fluentd_filelog_src_config self
        = Ok (fluentd_tail_src_config_template (join "," ks))
        ∧ NoDup ks
        ∧ (∀ f, f ∈ ks <-> ∃ entry, entry ∈ fl ∧ fl_file entry = Some f)
        ∧ (∃ tm sm,
             __generate_oms_mdsd_filelog_config self
             = (acc <- for_each (sorted ks) (filelog_file_body self tm sm)
                         (EmptyString, EmptyString, EmptyString) ;;
                Ok (_mdsd_sources_events_config_template acc.1.1 acc.1.2 acc.2)))
        ∧ sorted ks ≡ₚ ks.
Proof.
  intros fl self.
  apply (watched_files_are_the_policy_files None fl sc_example self).
  - reflexivity.
  - discriminate.
Defined.

End FileLogPolicy.

(** ** Merging a generated document into the configuration tree *)
Module Merge.
Import LadLoggingConfig Examples.

Lemma tag_with_children c e : tag (with_children c e) = tag e.
Proof. by destruct e. Qed.

Lemma tag_append_at pos sub e : tag (append_at pos sub e) = tag e.
Proof. destruct pos; simpl; apply tag_with_children. Qed.

Lemma alter_as_insert {A} (f : A -> A) i (l : list A) x :
  l !! i = Some x -> alter f i l = <[i := f x]> l.
Proof.
  intros Hx. apply list_eq. intros j. destruct (decide (i = j)) as [<-|Hne].
  - rewrite list_lookup_alter_eq, Hx, list_lookup_insert_eq; [done|].
    by eapply lookup_lt_Some.
  - by rewrite list_lookup_alter_ne, list_lookup_insert_ne.
Qed.

(** Appending below the child [i] replaces that child by one of the
    same tag and changes nothing else of the element. *)
Lemma append_all_frame i pos subs e c :
  children e !! i = Some c ->
  ∃ e' c', for_each subs (fun dst sub => Ok (append_at (i :: pos) sub dst)) e = Ok e'
           ∧ children e' = <[i := c']> (children e) ∧ tag c' = tag c.
Proof.
  revert e c. induction subs as [|sub subs IH]; intros e c Hc; cbn [for_each].
  - exists e, c. by rewrite list_insert_id.
  - destruct (IH (append_at (i :: pos) sub e) (append_at pos sub c))
      as (e' & c' & He' & Hch & Htag).
    { cbn [append_at]. by rewrite XmlMerge.children_with_children, list_lookup_alter_eq, Hc. }
    exists e', c'. split; [done|]. split.
    + rewrite Hch. cbn [append_at].
      by rewrite XmlMerge.children_with_children, (alter_as_insert _ _ _ c),
        list_insert_insert_eq.
    + by rewrite Htag, tag_append_at.
Qed.

(** Replacing a child whose tag is not the first step of a path does
    not change what the path selects. *)
Lemma select_positions_frame step rest i e e' c c' :
  children e !! i = Some c -> children e' = <[i := c']> (children e) ->
  tag c' = tag c -> tag c ≠ step ->
  select_positions (step :: rest) e' = select_positions (step :: rest) e.
Proof.
  intros Hc Hch Htag Hne. cbn [select_positions]. rewrite Hch. f_equal.
  apply list_eq. intros j. rewrite !list_lookup_imap.
  destruct (decide (i = j)) as [<-|Hij].
  - rewrite list_lookup_insert_eq by by eapply lookup_lt_Some.
    rewrite Hc. cbn. rewrite Htag.
    by destruct (String.eqb_spec (tag c) step).
  - by rewrite list_lookup_insert_ne.
Qed.

Lemma element_at_frame i j q e e' c' :
  children e' = <[i := c']> (children e) -> i ≠ j ->
  element_at (j :: q) e' = element_at (j :: q) e.
Proof.
  intros Hch Hij. cbn [element_at]. by rewrite Hch, list_lookup_insert_ne.
Qed.

(** A position that a path selects starts at a child with the tag of
    the first step. *)
Lemma find_position_head e path step rest pos :
  path_steps path = step :: rest ->
  find_position e path = Some pos ->
  ∃ i pos' c, pos = i :: pos' ∧ children e !! i = Some c ∧ tag c = step.
Proof.
  unfold find_position. intros -> Hpos%head_Some_elem_of.
  cbn [select_positions] in Hpos.
  apply list_elem_of_join in Hpos as (l & Hin & Hl).
  apply elem_of_lookup_imap in Hl as (i & c & -> & Hc).
  destruct (String.eqb_spec (tag c) step) as [Htag|_];
    [|by apply elem_of_nil in Hin].
  apply list_elem_of_fmap in Hin as (pos' & -> & _).
  by exists i, pos', c.
Qed.

(** copy_sub_elems on a destination that has the path: the children of
    the source element, if there is one, are appended to the
    destination element, and only the child of the root above it is
    replaced, by one of the same tag. *)
Lemma copy_sub_elems_frame dst src path i pos c d :
  find_position dst path = Some (i :: pos) ->
  children dst !! i = Some c ->
  element_at (i :: pos) dst = Some d ->
  ∃ dst' c',
    copy_sub_elems dst src path = Ok dst'
    ∧ children dst' = <[i := c']> (children dst) ∧ tag c' = tag c
    ∧ element_at (i :: pos) dst'
      = Some (with_children
                (children d ++ from_option children [] (find src path)) d).
Proof.
  intros Hpos Hc Hd. unfold copy_sub_elems. rewrite Hpos.
  destruct (find src path) as [s|]; cbn [from_option].
  - destruct (append_all_frame i pos (children s) dst c Hc)
      as (dst' & c' & Hfor & Hch & Htag).
    destruct (XmlMerge.append_all (i :: pos) (children s) dst d Hd)
      as (dst'' & Hfor' & Hat).
    rewrite Hfor in Hfor'. injection Hfor' as <-.
    exists dst', c'. by rewrite Hfor.
  - exists dst, c. rewrite list_insert_id, app_nil_r by done.
    split; [done|]. split; [done|]. split; [done|]. rewrite Hd. by destruct d.
Qed.

(** X15: merging a generated document into a configuration tree that has
    the three sections: the children of the Sources, Events/MdsdEvents
    and EventStreamingAnnotations elements of the parsed document are
    appended, in their order, to the children of the corresponding
    elements of the tree, each copy leaving the other two sections as
    they are; a section that the document lacks receives nothing. *)
Theorem merge_appends_the_three_sections (fromstring : string -> result Element)
  dst xml src p1 p2 p3 d1 d2 d3 :
  xml ≠ EmptyString -> fromstring xml = Ok src ->
  find_position dst "Sources" = Some p1 -> element_at p1 dst = Some d1 ->
  find_position dst "Events/MdsdEvents" = Some p2 -> element_at p2 dst = Some d2 ->
  find_position dst "EventStreamingAnnotations" = Some p3 ->
  element_at p3 dst = Some d3 ->
  ∃ dst',
    copy_source_mdsdevent_eh_url_elems fromstring dst (Some xml) = Ok dst'
    ∧ element_at p1 dst'
      = Some (with_children
                (children d1 ++ from_option children [] (find src "Sources")) d1)
    ∧ element_at p2 dst'
      = Some (with_children
                (children d2
                 ++ from_option children [] (find src "Events/MdsdEvents")) d2)
    ∧ element_at p3 dst'
      = Some (with_children
                (children d3
                 ++ from_option children [] (find src "EventStreamingAnnotations"))
                d3)
    ∧ length (children dst') = length (children dst).
Proof.
  intros Hxml Hsrc H1 Hd1 H2 Hd2 H3 Hd3.
  destruct (find_position_head dst "Sources" "Sources" [] p1 eq_refl H1)
    as (i1 & q1 & c1 & -> & Hc1 & Ht1).
  destruct (find_position_head dst "Events/MdsdEvents" "Events" ["MdsdEvents"]
              p2 eq_refl H2) as (i2 & q2 & c2 & -> & Hc2 & Ht2).
  destruct (find_position_head dst "EventStreamingAnnotations"
              "EventStreamingAnnotations" [] p3 eq_refl H3)
    as (i3 & q3 & c3 & -> & Hc3 & Ht3).
  assert (i1 ≠ i2) as H12 by (intros ->; congruence).
  assert (i1 ≠ i3) as H13 by (intros ->; congruence).
  assert (i2 ≠ i3) as H23 by (intros ->; congruence).
  (* the Sources section *)
  destruct (copy_sub_elems_frame dst src "Sources" i1 q1 c1 d1 H1 Hc1 Hd1)
    as (t1 & c1' & Hcopy1 & Hch1 & Htag1 & Hat1).
  assert (find_position t1 "Events/MdsdEvents" = Some (i2 :: q2)) as H2'.
  { rewrite <- H2. unfold find_position.
    change (path_steps "Events/MdsdEvents") with ["Events"; "MdsdEvents"].
    rewrite (select_positions_frame "Events" ["MdsdEvents"] i1 dst t1 c1 c1');
      [done..|]. by rewrite Ht1. }
  assert (children t1 !! i2 = Some c2) as Hc2'.
  { by rewrite Hch1, list_lookup_insert_ne. }
  assert (element_at (i2 :: q2) t1 = Some d2) as Hd2'.
  { by rewrite (element_at_frame i1 i2 q2 dst t1 c1'). }
  (* the Events/MdsdEvents section *)
  destruct (copy_sub_elems_frame t1 src "Events/MdsdEvents" i2 q2 c2 d2 H2' Hc2' Hd2')
    as (t2 & c2' & Hcopy2 & Hch2 & Htag2 & Hat2).
  assert (find_position t2 "EventStreamingAnnotations" = Some (i3 :: q3)) as H3'.
  { rewrite <- H3. unfold find_position.
    change (path_steps "EventStreamingAnnotations")
      with ["EventStreamingAnnotations"].
    rewrite (select_positions_frame "EventStreamingAnnotations" [] i2 t1 t2 c2 c2');
      [|done..|by rewrite Ht2].
    rewrite (select_positions_frame "EventStreamingAnnotations" [] i1 dst t1 c1 c1');
      [done..|]. by rewrite Ht1. }
  assert (children t2 !! i3 = Some c3) as Hc3'.
  { by rewrite Hch2, list_lookup_insert_ne, Hch1, list_lookup_insert_ne. }
  assert (element_at (i3 :: q3) t2 = Some d3) as Hd3'.
  { by rewrite (element_at_frame i2 i3 q3 t1 t2 c2'),
      (element_at_frame i1 i3 q3 dst t1 c1'). }
  (* the EventStreamingAnnotations section *)
  destruct (copy_sub_elems_frame t2 src "EventStreamingAnnotations" i3 q3 c3 d3
              H3' Hc3' Hd3')
    as (t3 & c3' & Hcopy3 & Hch3 & Htag3 & Hat3).
  exists t3. split; [|split; [|split; [|split]]].
  - unfold copy_source_mdsdevent_eh_url_elems.
    destruct xml; [done|]. cbn [truthy_opt_str truthy_str negb default from_option id].
    rewrite Hsrc. cbn [Py.bind]. rewrite Hcopy1. cbn [Py.bind].
    by rewrite Hcopy2.
  - by rewrite (element_at_frame i3 i1 q1 t2 t3 c3'),
      (element_at_frame i2 i1 q1 t1 t2 c2').
  - by rewrite (element_at_frame i3 i2 q2 t2 t3 c3').
  - done.
  - by rewrite Hch3, Hch2, Hch1, !length_insert.
Qed.

Lemma merge_appends_the_three_sections_witness :
  let fromstring := fun _ : string => Ok logging_tree in
  ∃ dst',
    copy_source_mdsdevent_eh_url_elems fromstring mdsd_tree (Some "<xml/>") = Ok dst'
    ∧ element_at [1] dst'
      = Some (with_children
                (children (elem "Sources" [elem "Source" []])
                 ++ from_option children [] (find logging_tree "Sources"))
                (elem "Sources" [elem "Source" []]))
    ∧ element_at [2; 0] dst'
      = Some (with_children
                (children (elem "MdsdEvents" [])
                 ++ from_option children [] (find logging_tree "Events/MdsdEvents"))
                (elem "MdsdEvents" []))
    ∧ element_at [3] dst'
      = Some (with_children
                (children (elem "EventStreamingAnnotations" [])
                 ++ from_option children []
                      (find logging_tree "EventStreamingAnnotations"))
                (elem "EventStreamingAnnotations" []))
    ∧ length (children dst') = length (children mdsd_tree).
Proof.
  intros fromstring.
  apply (merge_appends_the_three_sections fromstring mdsd_tree "<xml/>" logging_tree
           [1] [2; 0] [3]); try reflexivity.
  discriminate.
Defined.

Lemma copy_sub_elems_present_witness :
  ∃ dst',
    copy_sub_elems mdsd_tree logging_tree "Events/MdsdEvents" = Ok dst'
    ∧ element_at [2; 0] dst'
      = Some (with_children
                (children (elem "MdsdEvents" [])
                 ++ children (elem "MdsdEvents"
                                [elem "MdsdEventSource" [elem "RouteEvent" []]]))
                (elem "MdsdEvents" [])).
Proof.
  apply (XmlMerge.copy_sub_elems_present mdsd_tree logging_tree "Events/MdsdEvents"
           [2; 0]); reflexivity.
Defined.

(** X14: when the source tree has the path and the destination tree has not,
    copy_sub_elems raises the AttributeError of the append on None as
    soon as the source element has a child, and does nothing when it has
    none. *)
Theorem copy_sub_elems_absent_in_destination dst_xml src_xml path s :
  find src_xml path = Some s ->
  find_position dst_xml path = None ->
  copy_sub_elems dst_xml src_xml path
  = match children s with
    | [] => Ok dst_xml
    | _ :: _ =>
        Raise (AttributeError "'NoneType' object has no attribute 'append'")
    end.
Proof.
  intros Hs Hd. unfold copy_sub_elems. rewrite Hs, Hd.
  by destruct (children s).
Qed.

Lemma copy_sub_elems_absent_in_destination_witness :
  copy_sub_elems dst_tree logging_tree "EventStreamingAnnotations"
  = match children (elem "EventStreamingAnnotations"
                      [elem "EventStreamingAnnotation" []]) with
    | [] => Ok dst_tree
    | _ :: _ =>
        Raise (AttributeError "'NoneType' object has no attribute 'append'")
    end.
Proof.
  apply (copy_sub_elems_absent_in_destination dst_tree logging_tree
           "EventStreamingAnnotations"); reflexivity.
Defined.

End Merge.

(** ** The fluentd output configuration *)
Module Output.
Import LadLoggingConfig Examples.

(** X13: the fluentd output configuration is produced for every instance and
    is never empty; it carries the line that restricts the tag patterns
    to syslog exactly when the fluentd syslog source configuration is
    produced, and lacks it exactly when that configuration is empty. *)
Theorem out_mdsd_config_follows_the_syslog_source self :
  ∃ out,
    get_oms_fluentd_out_mdsd_config self = Ok out
    ∧ out ≠ EmptyString
    ∧ (out = fluentd_out_mdsd_config_template tag_regex_cfg_line_enabled
       <-> get_oms_fluentd_syslog_src_config self = Ok fluentd_syslog_src_config)
    ∧ (out = fluentd_out_mdsd_config_template EmptyString
       <-> get_oms_fluentd_syslog_src_config self = Ok EmptyString).
Proof.
  unfold get_oms_fluentd_out_mdsd_config, get_oms_fluentd_syslog_src_config.
  assert (fluentd_out_mdsd_config_template EmptyString
          ≠ fluentd_out_mdsd_config_template tag_regex_cfg_line_enabled) as Hne.
  { intros H. vm_compute in H. discriminate H. }
  destruct (_syslog_disabled self); eexists; (split; [reflexivity|]);
    (split; [done|]); split; split; intros H; try done; try discriminate H;
    by destruct Hne.
Qed.

End Output.
